(** * Pricing and coupon engine of the Pakkhtun Biryani backend

    A shallow embedding of [apply_coupon] and [create_order] from
    [main.py], together with the pydantic models of [schemas.py] they use,
    and the properties of the order total and coupon discount rules. *)

From Stdlib Require Import ZArith List String Ascii Bool Lia.
From Stdlib Require Import Floats.SpecFloat.
Import ListNotations.

Local Open Scope Z_scope.

(** ** Python floats

    A Python [float] is an IEEE 754 binary64 number.  The Standard Library
    specifies the binary64 operations on [spec_float]; the handlers only use
    addition, subtraction, multiplication, division, comparison, [max] and
    [round(x, 2)]. *)

Module PyFloat.

Definition float := spec_float.

Definition prec : Z := 53.
Definition emax : Z := 1024.

Definition fadd : float -> float -> float := SFadd prec emax.
Definition fsub : float -> float -> float := SFsub prec emax.
Definition fmul : float -> float -> float := SFmul prec emax.
Definition fdiv : float -> float -> float := SFdiv prec emax.

(** [x < y], [x <= y], [x >= y], [x > y], [x == y] *)
Definition flt (x y : float) : bool := SFltb x y.
Definition fle (x y : float) : bool := SFleb x y.
Definition fge (x y : float) : bool := SFleb y x.
Definition fgt (x y : float) : bool := SFltb y x.
Definition feq (x y : float) : bool := SFeqb x y.

(** [float(n)] for a Python int [n]. *)
Definition float_of_int (n : Z) : float := binary_normalize prec emax n 0 false.

(** The literals [0.0] and [100.0]. *)
Definition zero : float := S754_zero false.
Definition hundred : float := float_of_int 100.

(** [max(a, b)]: the first argument is kept unless the second is
    strictly greater. *)
Definition py_max (a b : float) : float := if fgt b a then b else a.

(** [sum(xs)]: the items are added from left to right to the int [0],
    each addition rounded as binary64 addition is. *)
Definition py_sum (xs : list float) : float :=
  fold_left fadd xs (float_of_int 0).

(** *** [round(x, 2)]

    CPython prints [x] to two places after the point with the correctly
    rounded conversion (ties go to the even digit) and reads the decimal
    string back as the nearest float; infinities and NaN round to
    themselves and the sign of a zero result is that of [x].

    [dtoa_cents m e] is the integer written by the first conversion for
    the magnitude [m * 2^e], that is the integer nearest to
    [m * 2^e * 100]. *)
Definition dtoa_cents (m : positive) (e : Z) : Z :=
  match e with
  | Zneg p =>
      let d := Z.pow 2 (Zpos p) in
      let '(q, r) := Z.div_eucl (Zpos m * 100) d in
      match Z.compare (2 * r) d with
      | Lt => q
      | Eq => if Z.even q then q else q + 1
      | Gt => q + 1
      end
  | _ => Zpos m * 100 * Z.pow 2 e
  end.

(** [strtod_cents s q] reads the string back: the float nearest to
    [q / 100], with sign [s]. *)
Definition strtod_cents (s : bool) (q : Z) : float :=
  match q with
  | Zpos p => SFdiv prec emax (S754_finite s p 0) (S754_finite false 100 0)
  | _ => S754_zero s
  end.

Definition round2 (x : float) : float :=
  match x with
  | S754_finite s m e => strtod_cents s (dtoa_cents m e)
  | _ => x
  end.

(** The sign of [x] is [s] and [x] is a number. *)
Definition signed (s : bool) (x : float) : Prop :=
  match x with
  | S754_zero s' | S754_infinity s' | S754_finite s' _ _ => s' = s
  | S754_nan => False
  end.

(** Sign bit clear and not NaN: [+0.0], a positive finite number or
    [+inf]. *)
Definition nonneg (x : float) : Prop :=
  match x with
  | S754_zero s | S754_infinity s | S754_finite s _ _ => s = false
  | S754_nan => False
  end.

Definition is_nan (x : float) : bool :=
  match x with
  | S754_nan => true
  | _ => false
  end.

End PyFloat.
Import PyFloat.


(** ** Python strings

    A [str] is kept as its UTF-8 bytes.  [upper] and [lower] are
    [str.upper] and [str.lower] on the code points U+0000 to U+00FF (Basic
    Latin and Latin-1 Supplement) and on U+1E9E, the capital sharp s; the
    bytes of every other code point are left as they are, the case tables
    of the other scripts are not reproduced. *)

Module PyStr.

Definition is_lower (c : ascii) : bool :=
  let n := nat_of_ascii c in (97 <=? n)%nat && (n <=? 122)%nat.


(** One byte below 128: [a]..[z] to [A]..[Z] and back. *)
Definition upper_ascii (c : ascii) : ascii :=
  if is_lower c then ascii_of_nat (nat_of_ascii c - 32) else c.


(** The bytes that matter in the encoding of U+0080 to U+00FF and of
    U+1E9E. *)
Definition xC2 : ascii := Eval compute in ascii_of_nat 194.
Definition xC3 : ascii := Eval compute in ascii_of_nat 195.
Definition xC5 : ascii := Eval compute in ascii_of_nat 197.
Definition xCE : ascii := Eval compute in ascii_of_nat 206.
Definition xB8 : ascii := Eval compute in ascii_of_nat 184.
Definition x9C : ascii := Eval compute in ascii_of_nat 156.



(** [C2 d] encodes U+0080 to U+00BF.  Only the micro sign U+00B5 has an
    upper case, the Greek capital mu U+039C. *)
Definition upper_C2 (d : ascii) : string :=
  if (nat_of_ascii d =? 181)%nat then String xCE (String x9C EmptyString)
  else String xC2 (String d EmptyString).

(** [C3 d] encodes U+00C0 to U+00FF.  The small letters U+00E0 to U+00FE
    but the division sign U+00F7 go 32 down; the sharp s U+00DF becomes
    [SS] and U+00FF becomes U+0178. *)
Definition upper_C3 (d : ascii) : string :=
  let n := nat_of_ascii d in
  if (n =? 159)%nat then "SS"
  else if (n =? 191)%nat then String xC5 (String xB8 EmptyString)
  else if (160 <=? n)%nat && (n <=? 190)%nat && negb (n =? 183)%nat
       then String xC3 (String (ascii_of_nat (n - 32)) EmptyString)
  else String xC3 (String d EmptyString).


Fixpoint upper (s : string) : string :=
  match s with
  | EmptyString => EmptyString
  | String c rest =>
      match rest with
      | String d rest' =>
          if Ascii.eqb c xC3 then upper_C3 d ++ upper rest'
          else if Ascii.eqb c xC2 then upper_C2 d ++ upper rest'
          else String (upper_ascii c) (upper rest)
      | EmptyString => String (upper_ascii c) EmptyString
      end
  end.




(** Truth value of a string: the empty string is false. *)
Definition truthy (s : string) : bool :=
  match s with
  | EmptyString => false
  | String _ _ => true
  end.

End PyStr.
Import PyStr.

(** ** Pydantic models of [schemas.py] *)

Inductive Variant := half | full.
Inductive DeliveryType := delivery | takeaway.
Inductive PaymentMethod := razorpay | upi | cod.
Inductive PaymentStatus := payment_pending | payment_paid | payment_cod.
Inductive OrderStatus :=
  pending | accepted | being_prepared | out_for_delivery | delivered | cancelled.

Module Coupon.
Record t := mk {
  code : string;
  description : option string;
  type : string;
  value : float;
  min_order : float;
  active : bool
}.

(** The field constraints of the model: [value >= 0], [min_order >= 0]. *)
Definition valid (c : t) : Prop :=
  fge (value c) zero = true /\ fge (min_order c) zero = true.
End Coupon.

Module OrderItem.
Record t := mk {
  item_id : string;
  title : string;
  variant : Variant;
  quantity : Z;
  unit_price : float;
  total_price : float;
  image_url : option string
}.

(** [quantity >= 1], [unit_price >= 0], [total_price >= 0]. *)
Definition valid (i : t) : Prop :=
  1 <= quantity i /\ fge (unit_price i) zero = true
  /\ fge (total_price i) zero = true.
End OrderItem.

Module DeliveryAddress.
Record t := mk {
  label : option string;
  line1 : string;
  line2 : option string;
  city : string;
  state : string;
  pincode : string;
  lat : option float;
  lng : option float
}.
End DeliveryAddress.

Module Order.
Record t := mk {
  user_id : option string;
  phone : string;
  items : list OrderItem.t;
  subtotal : float;
  discount : float;
  delivery_fee : float;
  total : float;
  delivery_type : DeliveryType;
  address : option DeliveryAddress.t;
  payment_method : PaymentMethod;
  payment_status : PaymentStatus;
  status : OrderStatus;
  eta_minutes : option Z;
  coupon_code : option string;
  notes : option string
}.
End Order.

(** ** Request bodies of [main.py] *)

Module ApplyCouponPayload.
Record t := mk {
  code : string;
  subtotal : float
}.
End ApplyCouponPayload.

Module CreateOrderPayload.
Record t := mk {
  phone : string;
  items : list OrderItem.t;
  delivery_type : DeliveryType;
  address : option DeliveryAddress.t;
  coupon_code : option string;
  payment_method : PaymentMethod
}.

(** Every item passed the validation of [OrderItem]. *)
Definition valid (p : t) : Prop := Forall OrderItem.valid (items p).
End CreateOrderPayload.

(** ** The database

    The handlers reach two collections through the global [db]: the coupons
    and the orders.  A collection is the list of its documents in insertion
    order; an order document is stored with its [_id]. *)

Definition ObjectId := nat.

Record Db := {
  coupon : list Coupon.t;
  order : list (ObjectId * Order.t)
}.

Inductive HTTPException := HTTPError (status_code : nat) (detail : string).

Inductive result (A : Type) :=
| Return (a : A)
| Raise (e : HTTPException).
Arguments Return {A} a.
Arguments Raise {A} e.

(** A handler reads and writes the database and either returns or raises. *)
Definition M (A : Type) : Type := Db -> result A * Db.

Definition ret {A} (a : A) : M A := fun db => (Return a, db).

Definition raise {A} (e : HTTPException) : M A := fun db => (Raise e, db).

Definition bind {A B} (m : M A) (k : A -> M B) : M B :=
  fun db =>
    match m db with
    | (Return a, db') => k a db'
    | (Raise e, db') => (Raise e, db')
    end.

Notation "x <- m ;; k" := (bind m (fun x => k))
  (at level 61, m at next level, right associativity).

(** [db["coupon"].find_one({"code": code, "active": True})]: the first
    document whose code is exactly [code] and whose [active] is true. *)
Definition coupon_matches (code : string) (c : Coupon.t) : bool :=
  String.eqb (Coupon.code c) code && Bool.eqb (Coupon.active c) true.

Definition find_one_coupon (code : string) : M (option Coupon.t) :=
  fun db => (Return (find (coupon_matches code) (coupon db)), db).

(** [db["order"].find_one({"_id": oid})] *)
Definition find_one_order (oid : ObjectId) : M (option (ObjectId * Order.t)) :=
  fun db => (Return (find (fun d => Nat.eqb (fst d) oid) (order db)), db).

Definition fresh_id (docs : list (ObjectId * Order.t)) : ObjectId :=
  S (fold_right Nat.max 0%nat (List.map fst docs)).

(** Modelled from the spec: [database.create_document] is not part of the
    sources at hand.  The order store is an external persistence
    collaborator: the document is added to the [order] collection under an
    [_id] no stored order has, the id is returned, and no other collection
    is touched. *)
Definition create_document_order (doc : Order.t) : M ObjectId :=
  fun db =>
    let oid := fresh_id (order db) in
    (Return oid, {| coupon := coupon db; order := order db ++ [(oid, doc)] |}).

(** Modelled from the spec: [database.create_document] on the [coupon]
    collection, used by [seed_data]. *)
Definition create_document_coupon (doc : Coupon.t) : M unit :=
  fun db =>
    (Return tt, {| coupon := coupon db ++ [doc]; order := order db |}).

(** ** [POST /cart/apply-coupon] *)

Inductive ApplyCouponResponse :=
| NotApplied (discount : float) (reason : string)
| Applied (discount : float) (code : string) (detail : option string).

Definition applied (r : ApplyCouponResponse) : bool :=
  match r with
  | NotApplied _ _ => false
  | Applied _ _ _ => true
  end.

Definition response_discount (r : ApplyCouponResponse) : float :=
  match r with
  | NotApplied d _ => d
  | Applied d _ _ => d
  end.

Definition response_reason (r : ApplyCouponResponse) : option string :=
  match r with
  | NotApplied _ why => Some why
  | Applied _ _ _ => None
  end.

Definition apply_coupon (payload : ApplyCouponPayload.t) : M ApplyCouponResponse :=
  c <- find_one_coupon (upper (ApplyCouponPayload.code payload)) ;;
  match c with
  | None => raise (HTTPError 404 "Coupon not found")
  | Some c =>
      if flt (ApplyCouponPayload.subtotal payload) (Coupon.min_order c) then
        ret (NotApplied zero "Minimum order not met")
      else
        let discount :=
          if String.eqb (Coupon.type c) "flat" then Coupon.value c
          else fdiv (fmul (ApplyCouponPayload.subtotal payload) (Coupon.value c)) hundred in
        ret (Applied (round2 discount) (Coupon.code c) (Coupon.description c))
  end.

(** ** [POST /orders] *)

Record Payment := {
  gateway : PaymentMethod;
  order_id : ObjectId;
  amount : float
}.

Record CreateOrderResponse := {
  resp_order : option (ObjectId * Order.t);
  resp_payment : option Payment
}.

Definition subtotal_of (items : list OrderItem.t) : float :=
  py_sum (List.map OrderItem.total_price items).

Definition delivery_fee_of (t : DeliveryType) : Z :=
  match t with
  | takeaway => 0
  | delivery => 20
  end.

(** The discount before rounding, lines 235 to 239 of [main.py]. *)
Definition order_discount (coupon_code : option string) (subtotal : float) : M float :=
  match coupon_code with
  | Some code =>
      if truthy code then
        c <- find_one_coupon (upper code) ;;
        match c with
        | Some c =>
            if fge subtotal (Coupon.min_order c) then
              ret (if String.eqb (Coupon.type c) "flat" then Coupon.value c
                   else fdiv (fmul subtotal (Coupon.value c)) hundred)
            else ret zero
        | None => ret zero
        end
      else ret zero
  | None => ret zero
  end.

(** The [Order(...)] document of lines 241 to 256. *)
Definition order_doc (payload : CreateOrderPayload.t)
    (subtotal discount : float) (delivery_fee : Z) (total : float) : Order.t := {|
  Order.user_id := None;
  Order.phone := CreateOrderPayload.phone payload;
  Order.items := CreateOrderPayload.items payload;
  Order.subtotal := subtotal;
  Order.discount := round2 discount;
  Order.delivery_fee := float_of_int delivery_fee;
  Order.total := round2 total;
  Order.delivery_type := CreateOrderPayload.delivery_type payload;
  Order.address := CreateOrderPayload.address payload;
  Order.payment_method := CreateOrderPayload.payment_method payload;
  Order.payment_status :=
    match CreateOrderPayload.payment_method payload with
    | cod => payment_cod
    | _ => payment_pending
    end;
  Order.status := pending;
  Order.eta_minutes := Some 35;
  Order.coupon_code := CreateOrderPayload.coupon_code payload;
  Order.notes := None
|}.

(** The simulated payment of lines 259 to 262. *)
Definition payment_of (payload : CreateOrderPayload.t) (oid : ObjectId)
    (doc : Order.t) : option Payment :=
  match CreateOrderPayload.payment_method payload with
  | razorpay | upi =>
      Some {| gateway := CreateOrderPayload.payment_method payload;
              order_id := oid;
              amount := Order.total doc |}
  | cod => None
  end.

(** [serialize] renames the key [_id] of a document to [id] and prints its
    datetimes; a stored order is kept here beside its id and has no
    datetime field, so the document comes back as it is, and [None] stays
    [None]. *)
Definition serialize (doc : option (ObjectId * Order.t)) : option (ObjectId * Order.t) :=
  match doc with
  | None => None
  | Some d => Some d
  end.

Definition create_order (payload : CreateOrderPayload.t) : M CreateOrderResponse :=
  match CreateOrderPayload.items payload with
  | [] => raise (HTTPError 400 "No items")
  | _ :: _ =>
      let subtotal := subtotal_of (CreateOrderPayload.items payload) in
      let delivery_fee := delivery_fee_of (CreateOrderPayload.delivery_type payload) in
      discount <- order_discount (CreateOrderPayload.coupon_code payload) subtotal ;;
      let total :=
        py_max zero (fadd (fsub subtotal discount) (float_of_int delivery_fee)) in
      let doc := order_doc payload subtotal discount delivery_fee total in
      oid <- create_document_order doc ;;
      order <- find_one_order oid ;;
      ret {| resp_order := serialize order;
             resp_payment := payment_of payload oid doc |}
  end.

(** ** [POST /admin/seed], the coupon collection *)

Definition seed_coupon : Coupon.t := {|
  Coupon.code := "PAKKTUN15";
  Coupon.description := Some "15% off on orders above ₹499"%string;
  Coupon.type := "percent";
  Coupon.value := float_of_int 15;
  Coupon.min_order := float_of_int 499;
  Coupon.active := true
|}.

Definition seed_data : M unit :=
  fun db =>
    match coupon db with
    | [] => create_document_coupon seed_coupon db
    | _ :: _ => (Return tt, db)
    end.

(** ** The operations of the specification

    The specification names the pricing done by [create_order]
    [priceOrder] and the handler [apply_coupon] [applyCouponPreview]. *)

(** The coupon the lookup of both handlers resolves for a caller's code. *)
Definition lookup (db : Db) (code : string) : option Coupon.t :=
  find (coupon_matches (upper code)) (coupon db).

(** The order document a successful [create_order] returns. *)
Definition order_of (r : result CreateOrderResponse * Db) : option Order.t :=
  match fst r with
  | Return resp => option_map snd (resp_order resp)
  | Raise _ => None
  end.

Record PricingResult := {
  pr_subtotal : float;
  pr_discount : float;
  pr_deliveryFee : float;
  pr_total : float
}.

Definition pricing_of (o : Order.t) : PricingResult := {|
  pr_subtotal := Order.subtotal o;
  pr_discount := Order.discount o;
  pr_deliveryFee := Order.delivery_fee o;
  pr_total := Order.total o
|}.

Definition priceOrder (db : Db) (payload : CreateOrderPayload.t) : option PricingResult :=
  option_map pricing_of (order_of (create_order payload db)).

Definition applyCouponPreview (db : Db) (code : string) (subtotal : float)
    : result ApplyCouponResponse :=
  fst (apply_coupon {| ApplyCouponPayload.code := code;
                       ApplyCouponPayload.subtotal := subtotal |} db).

(** The coupon kinds of the specification and its step 5: the value itself
    for a flat coupon, the percentage of the subtotal otherwise. *)
Inductive Kind := Flat | Percent.

Definition kind (c : Coupon.t) : Kind :=
  if String.eqb (Coupon.type c) "flat" then Flat else Percent.

Definition spec_discount (c : Coupon.t) (subtotal : float) : float :=
  match kind c with
  | Flat => Coupon.value c
  | Percent => fdiv (fmul subtotal (Coupon.value c)) hundred
  end.

(** The discount [create_order] computes before rounding. *)
Definition raw_discount (db : Db) (coupon_code : option string) (subtotal : float) : float :=
  match fst (order_discount coupon_code subtotal db) with
  | Return d => d
  | Raise _ => zero
  end.

(** The document [create_order] stores for a cart with items. *)
Definition built_order (db : Db) (payload : CreateOrderPayload.t) : Order.t :=
  let subtotal := subtotal_of (CreateOrderPayload.items payload) in
  let delivery_fee := delivery_fee_of (CreateOrderPayload.delivery_type payload) in
  let discount := raw_discount db (CreateOrderPayload.coupon_code payload) subtotal in
  order_doc payload subtotal discount delivery_fee
    (py_max zero (fadd (fsub subtotal discount) (float_of_int delivery_fee))).


(** ** Sample data for the scenarios *)

Definition empty_db : Db := {| coupon := []; order := [] |}.

(** The database after [POST /admin/seed]. *)
Definition seeded_db : Db := snd (seed_data empty_db).

Definition item (name : string) (qty price : Z) : OrderItem.t := {|
  OrderItem.item_id := name;
  OrderItem.title := name;
  OrderItem.variant := full;
  OrderItem.quantity := qty;
  OrderItem.unit_price := float_of_int price;
  OrderItem.total_price := float_of_int (qty * price);
  OrderItem.image_url := None
|}.

Definition cart (items : list OrderItem.t) (mode : DeliveryType)
    (code : option string) : CreateOrderPayload.t := {|
  CreateOrderPayload.phone := "9000000000";
  CreateOrderPayload.items := items;
  CreateOrderPayload.delivery_type := mode;
  CreateOrderPayload.address := None;
  CreateOrderPayload.coupon_code := code;
  CreateOrderPayload.payment_method := cod
|}.

(** A cart of 349 + 251 = 600 and a cart of 300. *)
Definition cart600 (mode : DeliveryType) (code : option string) : CreateOrderPayload.t :=
  cart [item "Signature Matka Chicken Biryani" 1 349; item "Malai Kebab" 1 251] mode code.

Definition cart300 (mode : DeliveryType) (code : option string) : CreateOrderPayload.t :=
  cart [item "Gulab Jamun" 2 150] mode code.

(** Coupons worth more than the cart: 150 percent, and 500 off flat. *)
Definition generous_db : Db := {|
  coupon := [
    {| Coupon.code := "DOUBLE"; Coupon.description := None;
       Coupon.type := "percent"; Coupon.value := float_of_int 150;
       Coupon.min_order := float_of_int 0; Coupon.active := true |};
    {| Coupon.code := "FLAT500"; Coupon.description := None;
       Coupon.type := "flat"; Coupon.value := float_of_int 500;
       Coupon.min_order := float_of_int 0; Coupon.active := true |};
    {| Coupon.code := "RETIRED"; Coupon.description := None;
       Coupon.type := "flat"; Coupon.value := float_of_int 50;
       Coupon.min_order := float_of_int 0; Coupon.active := false |}];
  order := []
|}.





(** A coupon stored under the empty code. *)
Definition blank_coupon : Coupon.t := {|
  Coupon.code := "";
  Coupon.description := None;
  Coupon.type := "flat";
  Coupon.value := float_of_int 10;
  Coupon.min_order := float_of_int 0;
  Coupon.active := true
|}.

Definition blank_db : Db := {| coupon := [blank_coupon]; order := [] |}.

(** ** Reading and updating orders

    [GET /orders/{order_id}], [GET /track/{order_id}] and
    [POST /admin/orders/{order_id}/status]. *)

Module UpdateStatusPayload.
Record t := mk {
  status : OrderStatus
}.

(** The literal type of [status] has every order status but [pending]. *)
Definition valid (p : t) : Prop := status p <> pending.
End UpdateStatusPayload.

(** The order document [find_one] returns for an id. *)
Definition stored (db : Db) (oid : ObjectId) : option (ObjectId * Order.t) :=
  find (fun d => Nat.eqb (fst d) oid) (order db).

(** [update_one({"_id": oid}, {"$set": ...})] on a collection: the first
    document with the id is rewritten, the others and their order are
    kept, and nothing happens when no document has the id. *)
Fixpoint update_first (oid : ObjectId) (f : Order.t -> Order.t)
    (docs : list (ObjectId * Order.t)) : list (ObjectId * Order.t) :=
  match docs with
  | [] => []
  | d :: rest =>
      if Nat.eqb (fst d) oid then (fst d, f (snd d)) :: rest
      else d :: update_first oid f rest
  end.

Definition update_one_order (oid : ObjectId) (f : Order.t -> Order.t) : M unit :=
  fun db =>
    (Return tt, {| coupon := coupon db; order := update_first oid f (order db) |}).

(** The keys of [upd] written into an order: [status], and [eta_minutes]
    when the order goes out for delivery.  [upd] also carries the stamp
    [updated_at]; an order document is kept here by the fields of [Order],
    which has no such field. *)
Definition set_upd (status : OrderStatus) (o : Order.t) : Order.t := {|
  Order.user_id := Order.user_id o;
  Order.phone := Order.phone o;
  Order.items := Order.items o;
  Order.subtotal := Order.subtotal o;
  Order.discount := Order.discount o;
  Order.delivery_fee := Order.delivery_fee o;
  Order.total := Order.total o;
  Order.delivery_type := Order.delivery_type o;
  Order.address := Order.address o;
  Order.payment_method := Order.payment_method o;
  Order.payment_status := Order.payment_status o;
  Order.status := status;
  Order.eta_minutes :=
    match status with
    | out_for_delivery => Some 15
    | _ => Order.eta_minutes o
    end;
  Order.coupon_code := Order.coupon_code o;
  Order.notes := Order.notes o
|}.

(** Every field of an order but [status] and [eta_minutes]. *)
Definition frozen_fields (o : Order.t) :=
  (Order.user_id o, Order.phone o, Order.items o,
   (Order.subtotal o, Order.discount o, Order.delivery_fee o, Order.total o),
   (Order.delivery_type o, Order.address o),
   (Order.payment_method o, Order.payment_status o),
   (Order.coupon_code o, Order.notes o)).

(** What a run of updates can have done to one order: nothing, or the
    order has left [pending] and its [eta_minutes] is the one it had or
    15. *)
Definition updated_from (d d' : ObjectId * Order.t) : Prop :=
  d' = d
  \/ (Order.status (snd d') <> pending
      /\ (Order.eta_minutes (snd d') = Order.eta_minutes (snd d)
          \/ Order.eta_minutes (snd d') = Some 15)).

Section Bson.

(** [ObjectId(s)] of the [bson] package: the id a string denotes, [None]
    when the constructor raises. *)
Variable ObjectId_of_str : string -> option ObjectId.

Definition get_order (order_id : string) : M (option (ObjectId * Order.t)) :=
  match ObjectId_of_str order_id with
  | None => raise (HTTPError 400 "Invalid id")
  | Some oid =>
      o <- find_one_order oid ;;
      match o with
      | None => raise (HTTPError 404 "Not found")
      | Some _ => ret (serialize o)
      end
  end.

Definition track_order (order_id : string) : M (option (ObjectId * Order.t)) :=
  get_order order_id.

Definition update_order_status (order_id : string) (payload : UpdateStatusPayload.t)
    : M (option (ObjectId * Order.t)) :=
  match ObjectId_of_str order_id with
  | None => raise (HTTPError 400 "Invalid id")
  | Some oid =>
      _ <- update_one_order oid (set_upd (UpdateStatusPayload.status payload)) ;;
      o <- find_one_order oid ;;
      ret (serialize o)
  end.

(** A run of status updates, one request after the other. *)
Fixpoint run_updates (requests : list (string * UpdateStatusPayload.t)) (db : Db) : Db :=
  match requests with
  | [] => db
  | (order_id, payload) :: rest =>
      run_updates rest (snd (update_order_status order_id payload db))
  end.

End Bson.

(** ** The user profile

    [GET /me], [POST /me/address] and [POST /me/favorites/{item_id}] work
    on the [user] collection alone.  A user document has the keys of
    [User]; a key can be absent, since the upsert of [add_address] creates
    a document from the phone and the pushed address only. *)

Module UserDoc.
Record t := mk {
  _id : ObjectId;
  phone : string;
  name : option string;
  email : option string;
  addresses : option (list DeliveryAddress.t);
  favorites : option (list string);
  loyalty_points : option Z;
  is_active : option bool
}.

(** [u.get("favorites", [])] and the same for the addresses. *)
Definition favs (u : t) : list string :=
  match favorites u with
  | Some l => l
  | None => []
  end.

Definition addrs (u : t) : list DeliveryAddress.t :=
  match addresses u with
  | Some l => l
  | None => []
  end.
End UserDoc.

Definition Users := list UserDoc.t.

(** A handler of the user profile reads and writes the user collection. *)
Definition MU (A : Type) : Type := Users -> result A * Users.

(** [not x_user_phone]: the header is absent or empty. *)
Definition header_missing (x_user_phone : option string) : bool :=
  match x_user_phone with
  | Some p => negb (truthy p)
  | None => true
  end.

(** [db["user"].find_one({"phone": phone})] *)
Definition find_user (phone : string) (users : Users) : option UserDoc.t :=
  find (fun u => String.eqb (UserDoc.phone u) phone) users.

(** [update_one({"phone": phone}, ...)]: the first user with the phone is
    rewritten. *)
Fixpoint update_first_user (phone : string) (f : UserDoc.t -> UserDoc.t)
    (users : Users) : Users :=
  match users with
  | [] => []
  | u :: rest =>
      if String.eqb (UserDoc.phone u) phone then f u :: rest
      else u :: update_first_user phone f rest
  end.

Definition with_addresses (u : UserDoc.t) (l : option (list DeliveryAddress.t)) : UserDoc.t := {|
  UserDoc._id := UserDoc._id u;
  UserDoc.phone := UserDoc.phone u;
  UserDoc.name := UserDoc.name u;
  UserDoc.email := UserDoc.email u;
  UserDoc.addresses := l;
  UserDoc.favorites := UserDoc.favorites u;
  UserDoc.loyalty_points := UserDoc.loyalty_points u;
  UserDoc.is_active := UserDoc.is_active u
|}.

Definition with_favorites (u : UserDoc.t) (l : option (list string)) : UserDoc.t := {|
  UserDoc._id := UserDoc._id u;
  UserDoc.phone := UserDoc.phone u;
  UserDoc.name := UserDoc.name u;
  UserDoc.email := UserDoc.email u;
  UserDoc.addresses := UserDoc.addresses u;
  UserDoc.favorites := l;
  UserDoc.loyalty_points := UserDoc.loyalty_points u;
  UserDoc.is_active := UserDoc.is_active u
|}.

(** [{"$push": {"addresses": a}}]: the address goes to the end of the
    array, which is created when the key is absent. *)
Definition push_address (a : DeliveryAddress.t) (u : UserDoc.t) : UserDoc.t :=
  with_addresses u (Some (UserDoc.addrs u ++ [a])).

(** [{"$pull": {"favorites": item}}]: every occurrence of the item leaves
    the array; an absent key stays absent. *)
Definition pull_favorite (item : string) (u : UserDoc.t) : UserDoc.t :=
  with_favorites u
    (option_map (filter (fun x => negb (String.eqb x item))) (UserDoc.favorites u)).

(** [{"$addToSet": {"favorites": item}}]: the item goes to the end of the
    array unless it is in it; the array is created when the key is
    absent. *)
Definition add_to_set_favorite (item : string) (u : UserDoc.t) : UserDoc.t :=
  with_favorites u
    (Some (if existsb (String.eqb item) (UserDoc.favs u) then UserDoc.favs u
           else UserDoc.favs u ++ [item])).

Definition fresh_user_id (users : Users) : ObjectId :=
  S (fold_right Nat.max 0%nat (List.map UserDoc._id users)).

(** [update_one({"phone": phone}, {"$push": ...}, upsert=True)]: when no
    user has the phone, a document with the phone and the pushed address
    is inserted. *)
Definition upsert_push_address (phone : string) (a : DeliveryAddress.t)
    (users : Users) : Users :=
  match find_user phone users with
  | Some _ => update_first_user phone (push_address a) users
  | None =>
      users ++ [{| UserDoc._id := fresh_user_id users;
                   UserDoc.phone := phone;
                   UserDoc.name := None;
                   UserDoc.email := None;
                   UserDoc.addresses := Some [a];
                   UserDoc.favorites := None;
                   UserDoc.loyalty_points := None;
                   UserDoc.is_active := None |}]
  end.

Definition get_me (x_user_phone : option string) : MU UserDoc.t :=
  fun users =>
    match x_user_phone with
    | Some phone =>
        if truthy phone then
          match find_user phone users with
          | None => (Raise (HTTPError 404 "User not found"), users)
          | Some u => (Return u, users)
          end
        else (Raise (HTTPError 401 "Missing phone header"), users)
    | None => (Raise (HTTPError 401 "Missing phone header"), users)
    end.

Definition add_address (payload : DeliveryAddress.t) (x_user_phone : option string)
    : MU (option UserDoc.t) :=
  fun users =>
    match x_user_phone with
    | Some phone =>
        if truthy phone then
          let users' := upsert_push_address phone payload users in
          (Return (find_user phone users'), users')
        else (Raise (HTTPError 401 "Missing phone header"), users)
    | None => (Raise (HTTPError 401 "Missing phone header"), users)
    end.

Inductive FavoriteAction := removed | added.

Definition toggle_favorite (item_id : string) (x_user_phone : option string)
    : MU FavoriteAction :=
  fun users =>
    match x_user_phone with
    | Some phone =>
        if truthy phone then
          match find_user phone users with
          | None => (Raise (HTTPError 404 "User not found"), users)
          | Some u =>
              if existsb (String.eqb item_id) (UserDoc.favs u) then
                (Return removed, update_first_user phone (pull_favorite item_id) users)
              else
                (Return added, update_first_user phone (add_to_set_favorite item_id) users)
          end
        else (Raise (HTTPError 401 "Missing phone header"), users)
    | None => (Raise (HTTPError 401 "Missing phone header"), users)
    end.

(** ** More sample data *)

(** The seeded database after one order was placed. *)
Definition placed_db : Db :=
  snd (create_order (cart600 delivery (Some "pakktun15"%string)) seeded_db).

Definition home : DeliveryAddress.t := {|
  DeliveryAddress.label := Some "Home"%string;
  DeliveryAddress.line1 := "12 GS Road";
  DeliveryAddress.line2 := None;
  DeliveryAddress.city := "Guwahati";
  DeliveryAddress.state := "Assam";
  DeliveryAddress.pincode := "781005";
  DeliveryAddress.lat := None;
  DeliveryAddress.lng := None
|}.

(** A user as [verify_otp] creates it, with two favorites. *)
Definition asha : UserDoc.t := {|
  UserDoc._id := 1%nat;
  UserDoc.phone := "9000000000";
  UserDoc.name := None;
  UserDoc.email := None;
  UserDoc.addresses := Some [];
  UserDoc.favorites := Some ["biryani"; "kebab"]%string;
  UserDoc.loyalty_points := Some 0;
  UserDoc.is_active := Some true
|}.

(** ** Coupons nobody can use *)

(** A float that is neither an infinity nor NaN. *)
Definition is_finite (x : float) : bool :=
  match x with
  | S754_zero _ | S754_finite _ _ _ => true
  | S754_infinity _ | S754_nan => false
  end.

(** A coupon no request resolves: it is inactive, or its stored code is
    not in upper case, or an active coupon stored before it has the same
    code. *)
Definition shadowed (before : list Coupon.t) (c : Coupon.t) : Prop :=
  Coupon.active c = false
  \/ upper (Coupon.code c) <> Coupon.code c
  \/ exists c', In c' before /\ Coupon.active c' = true
                /\ Coupon.code c' = Coupon.code c.

(** ** [serialize] on documents

    A document of the database is a Python dict: its keys in insertion
    order, each once, with their values.  [serialize] looks at the values
    of the document itself, not inside them. *)

Module Doc.
Section Documents.

(** The type [datetime], its method [isoformat], and [str] on an
    ObjectId. *)
Variable datetime : Type.
Variable isoformat : datetime -> string.
Variable str_of_ObjectId : ObjectId -> string.

#[warnings="-register-all"] Inductive value :=
| VNone
| VBool (b : bool)
| VInt (n : Z)
| VFloat (x : float)
| VStr (s : string)
| VObjectId (oid : ObjectId)
| VDatetime (t : datetime)
| VList (items : list value)
| VDict (fields : list (string * value)).

Definition dict := list (string * value).

(** [doc.get(key)] *)
Definition get (key : string) (doc : dict) : option value :=
  option_map snd (find (fun kv => String.eqb (fst kv) key) doc).

(** [doc[key] = v]: the value of a key the dict has is replaced where it
    stands, a new key goes to the end. *)
Fixpoint set (key : string) (v : value) (doc : dict) : dict :=
  match doc with
  | [] => [(key, v)]
  | kv :: rest =>
      if String.eqb (fst kv) key then (key, v) :: rest
      else kv :: set key v rest
  end.

(** [del doc[key]] *)
Definition del (key : string) (doc : dict) : dict :=
  filter (fun kv => negb (String.eqb (fst kv) key)) doc.

(** The loop over the items: a datetime becomes its ISO string. *)
Definition iso (kv : string * value) : string * value :=
  match snd kv with
  | VDatetime t => (fst kv, VStr (isoformat t))
  | _ => kv
  end.

Definition serialize (doc : option dict) : option dict :=
  match doc with
  | None => None
  | Some [] => Some []
  | Some doc =>
      let doc :=
        match get "_id" doc with
        | Some (VObjectId _id) => del "_id" (set "id" (VStr (str_of_ObjectId _id)) doc)
        | _ => doc
        end in
      Some (List.map iso doc)
  end.

(** The document after the lines on [_id], before the loop. *)
Definition id_step (doc : dict) : dict :=
  match get "_id" doc with
  | Some (VObjectId _id) => del "_id" (set "id" (VStr (str_of_ObjectId _id)) doc)
  | _ => doc
  end.

(** The value a key has after the loop. *)
Definition iso_value (v : value) : value :=
  match v with
  | VDatetime t => VStr (isoformat t)
  | _ => v
  end.

Definition is_datetime (v : value) : bool :=
  match v with
  | VDatetime _ => true
  | _ => false
  end.

Definition is_ObjectId (v : value) : bool :=
  match v with
  | VObjectId _ => true
  | _ => false
  end.

End Documents.

Arguments VNone {datetime}.
Arguments VBool {datetime} b.
Arguments VInt {datetime} n.
Arguments VFloat {datetime} x.
Arguments VStr {datetime} s.
Arguments VObjectId {datetime} oid.
Arguments VDatetime {datetime} t.
Arguments VList {datetime} items.
Arguments VDict {datetime} fields.
Arguments get {datetime} key doc.
Arguments set {datetime} key v doc.
Arguments del {datetime} key doc.
Arguments is_datetime {datetime} v.
Arguments is_ObjectId {datetime} v.
End Doc.

(** A stand-in for [ObjectId(s)] in the scenarios: a string of decimal
    digits denotes its number, any other string is refused. *)
Fixpoint digits_value (s : string) (acc : nat) : option nat :=
  match s with
  | EmptyString => Some acc
  | String c rest =>
      let n := nat_of_ascii c in
      if ((48 <=? n) && (n <=? 57))%nat then digits_value rest (10 * acc + (n - 48))%nat
      else None
  end.

Definition sample_ObjectId_of_str (s : string) : option ObjectId :=
  match s with
  | EmptyString => None
  | String _ _ => digits_value s 0%nat
  end.

(** * Properties *)

(** ** Facts about binary64 arithmetic *)

Section FloatFacts.

Lemma nonneg_signed x : nonneg x <-> signed false x.
Proof. destruct x; simpl; tauto. Qed.

Lemma iter_pos_invariant {A} (P : A -> Prop) (f : A -> A) :
  (forall x, P x -> P (f x)) ->
  forall n x, P x -> P (iter_pos f n x).
Proof. intros Hf; induction n; simpl; auto. Qed.

Lemma shr_1_nonneg mrs : 0 <= shr_m mrs -> 0 <= shr_m (shr_1 mrs).
Proof.
  destruct mrs as [m r t]; simpl.
  destruct m as [|[p|p|]|[p|p|]]; simpl; lia.
Qed.

Lemma shr_fexp_nonneg m e l :
  0 <= m -> 0 <= shr_m (fst (shr_fexp prec emax m e l)).
Proof.
  intros Hm. unfold shr_fexp, shr.
  assert (H0 : 0 <= shr_m (shr_record_of_loc m l))
    by (destruct l as [|[]]; exact Hm).
  destruct (fexp prec emax (Zdigits2 m + e) - e); simpl; auto.
  apply iter_pos_invariant; auto using shr_1_nonneg.
Qed.

Lemma round_nearest_even_nonneg m l : 0 <= m -> 0 <= round_nearest_even m l.
Proof.
  intros Hm. destruct l as [|[]]; simpl; try lia.
  destruct (Z.even m); lia.
Qed.

(** Rounding a non-negative mantissa yields a number of the given sign. *)
Lemma binary_round_aux_signed s m e l :
  0 <= m -> signed s (binary_round_aux prec emax s m e l).
Proof.
  intros Hm. unfold binary_round_aux.
  pose proof (shr_fexp_nonneg m e l Hm) as H1.
  destruct (shr_fexp prec emax m e l) as [mrs' e']; simpl in H1.
  pose proof (shr_fexp_nonneg _ e' loc_Exact
                (round_nearest_even_nonneg _ (loc_of_shr_record mrs') H1)) as H2.
  destruct (shr_fexp prec emax _ e' loc_Exact) as [mrs'' e'']; simpl in H2.
  destruct (shr_m mrs''); simpl; try reflexivity; try lia.
  destruct (_ <=? _); reflexivity.
Qed.

Lemma binary_round_signed s m e : signed s (binary_round prec emax s m e).
Proof.
  unfold binary_round.
  destruct (shl_align m e _) as [mz ez].
  apply binary_round_aux_signed; lia.
Qed.

Lemma float_of_int_nonneg n : 0 <= n -> nonneg (float_of_int n).
Proof.
  intros Hn. apply nonneg_signed. unfold float_of_int, binary_normalize.
  destruct n; try lia; [reflexivity | apply binary_round_signed].
Qed.

(** [x >= 0.0] holds for the numbers with a clear sign bit and for
    [-0.0]. *)
Lemma fge_zero_cases x :
  fge x zero = true <-> nonneg x \/ x = S754_zero true.
Proof.
  unfold fge, zero, SFleb; destruct x as [[]|[]| |[] m e]; simpl;
    intuition congruence.
Qed.

Lemma nonneg_fge_zero x : nonneg x -> fge x zero = true.
Proof. intros H; apply fge_zero_cases; auto. Qed.

(** Adding a float that passed [>= 0] to a non-negative one. *)
Lemma fadd_nonneg x y : nonneg x -> fge y zero = true -> nonneg (fadd x y).
Proof.
  intros Hx Hy. apply fge_zero_cases in Hy.
  destruct x as [sx|sx| |sx mx ex]; simpl in Hx; try contradiction; subst sx;
    destruct Hy as [Hy | ->]; try reflexivity;
    destruct y as [sy|sy| |sy my ey]; simpl in Hy; try contradiction;
    subst; try reflexivity.
  apply nonneg_signed. unfold fadd, SFadd, cond_Zopp.
  change (Z.pos ?a + Z.pos ?b) with (Z.pos (a + b)).
  apply binary_round_signed.
Qed.

Lemma py_sum_from_nonneg xs acc :
  nonneg acc -> Forall (fun x => fge x zero = true) xs ->
  nonneg (fold_left fadd xs acc).
Proof.
  revert acc; induction xs as [|x xs IH]; simpl; intros acc Ha Hxs; auto.
  inversion Hxs; subst. apply IH; auto using fadd_nonneg.
Qed.

Lemma py_sum_nonneg xs :
  Forall (fun x => fge x zero = true) xs -> nonneg (py_sum xs).
Proof. apply py_sum_from_nonneg. reflexivity. Qed.

Lemma fsub_zero x : fsub x zero = x.
Proof. destruct x as [[]|[]| |s m e]; reflexivity. Qed.

(** [max(0.0, x)] is never negative and never NaN. *)
Lemma py_max_zero_nonneg x : nonneg (py_max zero x).
Proof.
  unfold py_max, fgt, zero, SFltb.
  destruct x as [s|[]| |[] m e]; simpl; reflexivity.
Qed.

Lemma py_max_zero_id x : nonneg x -> py_max zero x = x.
Proof.
  unfold py_max, fgt, zero, SFltb.
  destruct x as [s|s| |s m e]; simpl; intros H; try contradiction;
    subst; reflexivity.
Qed.

Lemma div_eucl_nonneg a b q r :
  0 <= a -> 0 < b -> Z.div_eucl a b = (q, r) -> 0 <= q.
Proof.
  intros Ha Hb E.
  assert (q = a / b) by (unfold Z.div; rewrite E; reflexivity).
  subst q. apply Z.div_pos; lia.
Qed.

Lemma strtod_cents_signed s q : signed s (strtod_cents s q).
Proof.
  destruct q as [|p|p]; simpl; try reflexivity.
  unfold SFdiv, SFdiv_core_binary.
  set (m' := match _ with Z0 => _ | Zpos _ => _ | Zneg _ => _ end).
  destruct (Z.div_eucl m' 100) as [mz r] eqn:E.
  rewrite xorb_false_r.
  apply binary_round_aux_signed.
  apply (div_eucl_nonneg m' 100 mz r); try lia; auto.
  subst m'. destruct (_ - _ - _); try lia.
  apply Z.shiftl_nonneg; lia.
Qed.

(** Rounding to two places keeps the sign and never produces NaN from a
    number. *)
Lemma round2_signed s x : signed s x -> signed s (round2 x).
Proof.
  destruct x as [s'|s'| |s' m e]; simpl; auto.
  intros ->. apply strtod_cents_signed.
Qed.

Lemma round2_nonneg x : nonneg x -> nonneg (round2 x).
Proof. rewrite !nonneg_signed. apply round2_signed. Qed.

(** Comparison is antisymmetric, also on NaN where it is undefined both
    ways. *)
Lemma SFcompare_antisym x y :
  SFcompare y x = option_map CompOpp (SFcompare x y).
Proof.
  destruct x as [sx|sx| |sx mx ex], y as [sy|sy| |sy my ey]; simpl;
    try reflexivity;
    try (destruct sx; reflexivity); try (destruct sy; reflexivity);
    try (destruct sx, sy; reflexivity).
  destruct sx, sy; try reflexivity;
    rewrite (Z.compare_antisym ex ey);
    destruct (ex ?= ey); simpl; try reflexivity;
    rewrite (Pos.compare_cont_antisym mx my Eq); simpl;
    rewrite ?CompOpp_involutive; reflexivity.
Qed.

Lemma fge_not_flt x y : fge x y = true -> flt x y = false.
Proof.
  unfold fge, flt, SFleb, SFltb. rewrite (SFcompare_antisym x y).
  destruct (SFcompare x y) as [[]|]; simpl; congruence.
Qed.

Lemma not_flt_fge x y :
  is_nan x = false -> is_nan y = false -> flt x y = false -> fge x y = true.
Proof.
  unfold fge, flt, SFleb, SFltb. rewrite (SFcompare_antisym x y).
  intros Hx Hy.
  destruct (SFcompare x y) as [[]|] eqn:E; simpl; try congruence.
  destruct x, y; simpl in *; try discriminate; destruct s; discriminate.
Qed.

Lemma nonneg_not_nan x : nonneg x -> is_nan x = false.
Proof. destruct x; simpl; tauto. Qed.

Lemma fge_zero_not_nan x : fge x zero = true -> is_nan x = false.
Proof. destruct x; simpl; auto; discriminate. Qed.

End FloatFacts.

(** [round(x, 2)] on a few decimals: ties go to the even digit, and what
    decides is the binary value of the float, not its decimal spelling. *)
Example round2_samples :
  round2 (fdiv (float_of_int 125) (float_of_int 1000)) = fdiv (float_of_int 12) hundred
  /\ round2 (fdiv (float_of_int 375) (float_of_int 1000)) = fdiv (float_of_int 38) hundred
  /\ round2 (fdiv (float_of_int 2675) (float_of_int 1000)) = fdiv (float_of_int 267) hundred
  /\ round2 (fdiv (float_of_int (-4)) (float_of_int 1000)) = S754_zero true
  /\ round2 (float_of_int (10 ^ 22)) = float_of_int (10 ^ 22)
  /\ round2 (S754_infinity false) = S754_infinity false
  /\ round2 S754_nan = S754_nan.
Proof. repeat split; vm_compute; reflexivity. Qed.

(** ** Facts about codes *)

Section CodeFacts.

Local Open Scope string_scope.


Lemma upper_ascii_twice c : upper_ascii (upper_ascii c) = upper_ascii c.
Proof. destruct c as [[] [] [] [] [] [] [] []]; reflexivity. Qed.

(** The lead bytes [C2] and [C3] are not letters, and no letter becomes
    one. *)
Lemma upper_ascii_lead c :
  Ascii.eqb (upper_ascii c) xC3 = Ascii.eqb c xC3
  /\ Ascii.eqb (upper_ascii c) xC2 = Ascii.eqb c xC2.
Proof. destruct c as [[] [] [] [] [] [] [] []]; split; reflexivity. Qed.



(** How [upper] and [lower] read the head of a string. *)
Lemma upper_two c d s :
  upper (String c (String d s)) =
  if Ascii.eqb c xC3 then upper_C3 d ++ upper s
  else if Ascii.eqb c xC2 then upper_C2 d ++ upper s
  else String (upper_ascii c) (upper (String d s)).
Proof. reflexivity. Qed.

Lemma upper_one c s :
  Ascii.eqb c xC3 = false -> Ascii.eqb c xC2 = false ->
  upper (String c s) = String (upper_ascii c) (upper s).
Proof.
  intros H3 H2. destruct s as [|d s]; [reflexivity|].
  now rewrite upper_two, H3, H2.
Qed.



(** What [upper] wrote for a two-byte code point is left alone when it is
    read again. *)
Lemma upper_C3_chunk d s : upper (upper_C3 d ++ s) = upper_C3 d ++ upper s.
Proof.
  destruct d as [[] [] [] [] [] [] [] []]; destruct s as [|e s]; reflexivity.
Qed.

Lemma upper_C2_chunk d s : upper (upper_C2 d ++ s) = upper_C2 d ++ upper s.
Proof.
  destruct d as [[] [] [] [] [] [] [] []]; destruct s as [|e s]; reflexivity.
Qed.


Lemma upper_idempotent_two s :
  upper (upper s) = upper s
  /\ forall c, upper (upper (String c s)) = upper (String c s).
Proof.
  induction s as [|d s [IH1 IH2]].
  - split; [reflexivity|]. intros c. cbn [upper].
    now rewrite upper_ascii_twice.
  - split; [exact (IH2 d)|]. intros c. rewrite upper_two.
    destruct (Ascii.eqb c xC3) eqn:H3; [now rewrite upper_C3_chunk, IH1|].
    destruct (Ascii.eqb c xC2) eqn:H2; [now rewrite upper_C2_chunk, IH1|].
    destruct (upper_ascii_lead c) as [L3 L2].
    rewrite upper_one by congruence.
    now rewrite upper_ascii_twice, (IH2 d).
Qed.

(** [str.upper] is idempotent. *)
Lemma upper_idempotent s : upper (upper s) = upper s.
Proof. apply upper_idempotent_two. Qed.






Lemma truthy_nonempty s : s <> EmptyString -> truthy s = true.
Proof. destruct s; [congruence | reflexivity]. Qed.

End CodeFacts.

(** ** How the handlers run *)

Section Handlers.

Lemma find_one_coupon_run code db :
  find_one_coupon (upper code) db = (Return (lookup db code), db).
Proof. reflexivity. Qed.

Lemma lookup_active db code c : lookup db code = Some c -> Coupon.active c = true.
Proof.
  unfold lookup; intros H. apply find_some in H as [_ H].
  unfold coupon_matches in H. apply andb_true_iff in H as [_ H].
  now apply Bool.eqb_prop in H.
Qed.

Lemma lookup_code db code c : lookup db code = Some c -> Coupon.code c = upper code.
Proof.
  unfold lookup; intros H. apply find_some in H as [_ H].
  unfold coupon_matches in H. apply andb_true_iff in H as [H _].
  now apply String.eqb_eq in H.
Qed.

(** [apply_coupon] in one step. *)
Lemma apply_coupon_run payload db :
  apply_coupon payload db =
  (match lookup db (ApplyCouponPayload.code payload) with
   | None => Raise (HTTPError 404 "Coupon not found")
   | Some c =>
       if flt (ApplyCouponPayload.subtotal payload) (Coupon.min_order c)
       then Return (NotApplied zero "Minimum order not met")
       else Return (Applied (round2 (spec_discount c (ApplyCouponPayload.subtotal payload)))
                      (Coupon.code c) (Coupon.description c))
   end, db).
Proof.
  unfold apply_coupon, bind. rewrite find_one_coupon_run.
  destruct (lookup db _) as [c|]; [|reflexivity].
  unfold spec_discount, kind.
  destruct (flt _ _); [reflexivity|].
  destruct (String.eqb _ _); reflexivity.
Qed.

Lemma order_discount_run cc s db :
  order_discount cc s db = (Return (raw_discount db cc s), db).
Proof.
  unfold raw_discount, order_discount, bind.
  destruct cc as [code|]; [|reflexivity].
  destruct (truthy code); [|reflexivity].
  rewrite find_one_coupon_run.
  destruct (lookup db code) as [c|]; [|reflexivity].
  destruct (fge s _); reflexivity.
Qed.

Lemma raw_discount_found db code c s :
  code <> EmptyString -> lookup db code = Some c ->
  raw_discount db (Some code) s =
  if fge s (Coupon.min_order c) then spec_discount c s else zero.
Proof.
  intros Hne Hc. unfold raw_discount, order_discount, bind.
  rewrite (truthy_nonempty _ Hne), find_one_coupon_run, Hc.
  unfold spec_discount, kind.
  destruct (fge s _); [|reflexivity].
  destruct (String.eqb _ _); reflexivity.
Qed.

Lemma raw_discount_none db s : raw_discount db None s = zero.
Proof. reflexivity. Qed.

Lemma raw_discount_not_found db code s :
  lookup db code = None -> raw_discount db (Some code) s = zero.
Proof.
  intros Hc. unfold raw_discount, order_discount, bind.
  destruct (truthy code); [|reflexivity].
  now rewrite find_one_coupon_run, Hc.
Qed.

Lemma raw_discount_coupons db1 db2 cc s :
  coupon db1 = coupon db2 -> raw_discount db1 cc s = raw_discount db2 cc s.
Proof.
  intros H. unfold raw_discount, order_discount, bind, find_one_coupon.
  destruct cc as [code|]; [|reflexivity].
  destruct (truthy code); [|reflexivity].
  simpl. rewrite H.
  destruct (find _ _) as [c|]; [|reflexivity].
  destruct (fge s _); reflexivity.
Qed.

Lemma raw_discount_ineligible db code c s :
  lookup db code = Some c -> fge s (Coupon.min_order c) = false ->
  raw_discount db (Some code) s = zero.
Proof.
  intros Hc Hge. unfold raw_discount, order_discount, bind.
  destruct (truthy code); [|reflexivity].
  now rewrite find_one_coupon_run, Hc, Hge.
Qed.



Lemma fresh_id_above docs d : In d docs -> (fst d < fresh_id docs)%nat.
Proof.
  unfold fresh_id, ObjectId in *. induction docs as [|x docs IH]; [intros []|].
  cbn [In List.map fold_right].
  intros [-> | H]; [lia|]. specialize (IH H). lia.
Qed.

Lemma find_inserted docs doc :
  find (fun d => Nat.eqb (fst d) (fresh_id docs)) (docs ++ [(fresh_id docs, doc)])
  = Some (fresh_id docs, doc).
Proof.
  pose proof (fresh_id_above docs) as Hlt.
  generalize dependent (fresh_id docs); intros oid Hlt.
  unfold ObjectId in *.
  induction docs as [|x docs IH]; simpl.
  - now rewrite Nat.eqb_refl.
  - destruct (Nat.eqb (fst x) oid) eqn:E.
    + apply Nat.eqb_eq in E.
      specialize (Hlt x (or_introl eq_refl)). lia.
    + apply IH. intros d Hd. apply Hlt. now right.
Qed.

(** [create_order] in one step, on a cart with items. *)
Lemma create_order_run payload db :
  CreateOrderPayload.items payload <> [] ->
  create_order payload db =
  (Return {| resp_order := Some (fresh_id (order db), built_order db payload);
             resp_payment :=
               payment_of payload (fresh_id (order db)) (built_order db payload) |},
   {| coupon := coupon db;
      order := order db ++ [(fresh_id (order db), built_order db payload)] |}).
Proof.
  intros Hne. unfold create_order.
  destruct (CreateOrderPayload.items payload) as [|i items] eqn:E; [congruence|].
  rewrite <- E. unfold bind at 1. rewrite order_discount_run.
  unfold bind, create_document_order, find_one_order, ret; simpl.
  rewrite find_inserted. reflexivity.
Qed.

Lemma create_order_empty payload db :
  CreateOrderPayload.items payload = [] ->
  create_order payload db = (Raise (HTTPError 400 "No items"), db).
Proof. intros E. unfold create_order. now rewrite E. Qed.

Lemma order_of_create payload db :
  CreateOrderPayload.items payload <> [] ->
  order_of (create_order payload db) = Some (built_order db payload).
Proof. intros H. now rewrite (create_order_run _ _ H). Qed.

Lemma subtotal_nonneg payload :
  CreateOrderPayload.valid payload ->
  nonneg (subtotal_of (CreateOrderPayload.items payload)).
Proof.
  unfold CreateOrderPayload.valid, subtotal_of. intros H.
  apply py_sum_nonneg. apply Forall_map.
  eapply Forall_impl; [|exact H]. intros i Hi. apply Hi.
Qed.

End Handlers.

(** * The claims *)

(** The items of a concrete cart satisfy the constraints of [OrderItem]. *)
Ltac valid_cart :=
  unfold CreateOrderPayload.valid; simpl;
  repeat (apply Forall_cons || apply Forall_nil);
  (split; [simpl; lia | split; reflexivity]).


(** C1: with items in the cart and a coupon the lookup found whose
    [min_order] the subtotal reaches, the discount is the coupon's value
    for a flat coupon and [subtotal * value / 100] for a percent coupon, and
    both [priceOrder] and [applyCouponPreview] report it rounded to two
    decimal places. *)
Theorem C1_discount_rule db code c :
  lookup db code = Some c ->
  (forall payload,
      CreateOrderPayload.items payload <> [] ->
      CreateOrderPayload.coupon_code payload = Some code ->
      code <> EmptyString ->
      fge (subtotal_of (CreateOrderPayload.items payload)) (Coupon.min_order c) = true ->
      option_map pr_discount (priceOrder db payload) =
      Some (round2
              (match kind c with
               | Flat => Coupon.value c
               | Percent =>
                   fdiv (fmul (subtotal_of (CreateOrderPayload.items payload))
                           (Coupon.value c)) hundred
               end)))
  /\ (forall subtotal,
      fge subtotal (Coupon.min_order c) = true ->
      exists r,
        applyCouponPreview db code subtotal = Return r
        /\ response_discount r =
           round2
             (match kind c with
              | Flat => Coupon.value c
              | Percent => fdiv (fmul subtotal (Coupon.value c)) hundred
              end)).
Proof.
  intros Hc. split.
  - intros payload Hne Hcode Hcode' Hge.
    unfold priceOrder. rewrite (order_of_create _ _ Hne). simpl.
    rewrite Hcode, (raw_discount_found _ _ _ _ Hcode' Hc), Hge. reflexivity.
  - intros subtotal Hge. unfold applyCouponPreview.
    rewrite apply_coupon_run; simpl. rewrite Hc, (fge_not_flt _ _ Hge).
    eexists; split; reflexivity.
Qed.

Lemma C1_discount_rule_witness :
  lookup seeded_db "pakktun15" = Some seed_coupon
  /\ option_map pr_discount (priceOrder seeded_db (cart600 delivery (Some "pakktun15"%string)))
     = Some (float_of_int 90)
  /\ (exists r,
        applyCouponPreview seeded_db "pakktun15" (float_of_int 600) = Return r
        /\ response_discount r = float_of_int 90).
Proof.
  destruct (C1_discount_rule seeded_db "pakktun15" seed_coupon eq_refl)
    as [Horder Hpreview].
  split; [reflexivity|split].
  - rewrite (Horder (cart600 delivery (Some "pakktun15"%string)));
      [reflexivity | discriminate | reflexivity | discriminate | reflexivity].
  - exact (Hpreview (float_of_int 600) eq_refl).
Defined.

(** The same rule on a flat coupon: 500 off whatever the subtotal is. *)
Example flat_coupon_discount :
  option_map pr_discount (priceOrder generous_db (cart600 takeaway (Some "flat500"%string)))
  = Some (float_of_int 500)
  /\ option_map pr_total (priceOrder generous_db (cart600 takeaway (Some "flat500"%string)))
     = Some (float_of_int 100).
Proof. split; reflexivity. Qed.

(** C2: for every cart with items, [priceOrder] returns
    [max(0, subtotal - discount + deliveryFee)] rounded to two decimal
    places as the total, and the total is at least 0 whatever the discount
    is. *)
Theorem C2_total_floor db payload :
  CreateOrderPayload.items payload <> [] ->
  let subtotal := subtotal_of (CreateOrderPayload.items payload) in
  let discount := raw_discount db (CreateOrderPayload.coupon_code payload) subtotal in
  let deliveryFee :=
    float_of_int (delivery_fee_of (CreateOrderPayload.delivery_type payload)) in
  exists r,
    priceOrder db payload = Some r
    /\ pr_discount r = round2 discount
    /\ pr_total r = round2 (py_max zero (fadd (fsub subtotal discount) deliveryFee))
    /\ fge (pr_total r) zero = true
    /\ is_nan (pr_total r) = false.
Proof.
  intros Hne subtotal discount deliveryFee.
  unfold priceOrder. rewrite (order_of_create _ _ Hne). simpl.
  eexists; split; [reflexivity|]. simpl.
  fold subtotal. fold discount. fold deliveryFee.
  pose proof (round2_nonneg _
    (py_max_zero_nonneg (fadd (fsub subtotal discount) deliveryFee))) as H.
  repeat split; auto using nonneg_fge_zero, nonneg_not_nan.
Qed.

Lemma C2_total_floor_witness :
  CreateOrderPayload.items (cart300 takeaway (Some "double"%string)) <> []
  /\ exists r,
      priceOrder generous_db (cart300 takeaway (Some "double"%string)) = Some r
      /\ pr_discount r = float_of_int 450
      /\ pr_total r = zero
      /\ fge (pr_total r) zero = true
      /\ is_nan (pr_total r) = false.
Proof.
  split; [discriminate|].
  exact (C2_total_floor generous_db (cart300 takeaway (Some "double"%string))
           ltac:(discriminate)).
Defined.

(** C3: a cart with items priced without a coupon code, or with a code the
    lookup resolves to no active coupon, gets discount 0 and total
    [round(subtotal + deliveryFee, 2)], where the subtotal is the sum of the
    items' [total_price] and the delivery fee is 0 for takeaway and 20 for
    delivery. *)
Theorem C3_no_coupon db payload :
  CreateOrderPayload.items payload <> [] ->
  CreateOrderPayload.valid payload ->
  (CreateOrderPayload.coupon_code payload = None
   \/ exists code, CreateOrderPayload.coupon_code payload = Some code
                   /\ lookup db code = None) ->
  let subtotal := py_sum (List.map OrderItem.total_price (CreateOrderPayload.items payload)) in
  let deliveryFee :=
    match CreateOrderPayload.delivery_type payload with
    | takeaway => float_of_int 0
    | delivery => float_of_int 20
    end in
  priceOrder db payload =
  Some {| pr_subtotal := subtotal;
          pr_discount := zero;
          pr_deliveryFee := deliveryFee;
          pr_total := round2 (fadd subtotal deliveryFee) |}.
Proof.
  intros Hne Hvalid Hcode subtotal deliveryFee.
  assert (Hd : raw_discount db (CreateOrderPayload.coupon_code payload) subtotal = zero).
  { destruct Hcode as [-> | (code & -> & Hnone)];
      [apply raw_discount_none | now apply raw_discount_not_found]. }
  assert (Hfee : deliveryFee =
    float_of_int (delivery_fee_of (CreateOrderPayload.delivery_type payload)))
    by (unfold deliveryFee; destruct (CreateOrderPayload.delivery_type payload); reflexivity).
  assert (Hsum : nonneg (fadd subtotal deliveryFee)).
  { apply fadd_nonneg; [exact (subtotal_nonneg _ Hvalid)|].
    unfold deliveryFee; destruct (CreateOrderPayload.delivery_type payload); reflexivity. }
  unfold priceOrder. rewrite (order_of_create _ _ Hne). simpl.
  unfold pricing_of, built_order, order_doc; simpl.
  fold subtotal in Hd |- *. unfold subtotal_of. fold subtotal.
  rewrite Hd, fsub_zero, <- Hfee, (py_max_zero_id _ Hsum).
  reflexivity.
Qed.

Lemma C3_no_coupon_witness :
  priceOrder seeded_db (cart600 delivery (Some "FAKE10"%string)) =
  Some {| pr_subtotal := float_of_int 600;
          pr_discount := zero;
          pr_deliveryFee := float_of_int 20;
          pr_total := float_of_int 620 |}
  /\ priceOrder generous_db (cart300 takeaway (Some "retired"%string)) =
     Some {| pr_subtotal := float_of_int 300;
             pr_discount := zero;
             pr_deliveryFee := float_of_int 0;
             pr_total := float_of_int 300 |}
  /\ priceOrder seeded_db (cart300 delivery None) =
     Some {| pr_subtotal := float_of_int 300;
             pr_discount := zero;
             pr_deliveryFee := float_of_int 20;
             pr_total := float_of_int 320 |}.
Proof.
  split; [|split].
  - apply (C3_no_coupon seeded_db (cart600 delivery (Some "FAKE10"%string)));
      [discriminate | valid_cart
      | right; exists "FAKE10"%string; split; reflexivity].
  - apply (C3_no_coupon generous_db (cart300 takeaway (Some "retired"%string)));
      [discriminate | valid_cart
      | right; exists "retired"%string; split; reflexivity].
  - apply (C3_no_coupon seeded_db (cart300 delivery None));
      [discriminate | valid_cart | left; reflexivity].
Defined.

(** C4: [priceOrder] fails exactly when the items list is empty, and then
    with the client error 400 "No items"; on every other cart it returns a
    complete pricing result. *)
Theorem C4_fails_iff_empty db payload :
  (forall e, fst (create_order payload db) = Raise e <->
             CreateOrderPayload.items payload = [] /\ e = HTTPError 400 "No items")
  /\ ((exists resp o, fst (create_order payload db) = Return resp
                      /\ option_map snd (resp_order resp) = Some o
                      /\ priceOrder db payload = Some (pricing_of o))
      <-> CreateOrderPayload.items payload <> []).
Proof.
  destruct (CreateOrderPayload.items payload) as [|i items] eqn:E.
  - rewrite (create_order_empty _ _ E). simpl. split.
    + intros e; split; [intros [= <-]; auto | intros [_ ->]; reflexivity].
    + split; [intros (resp & o & H & _); discriminate | congruence].
  - assert (Hne : CreateOrderPayload.items payload <> []) by congruence.
    unfold priceOrder. rewrite (order_of_create _ _ Hne).
    rewrite (create_order_run _ _ Hne). simpl. split.
    + intros e; split; [discriminate | intros [[=] _]].
    + split; [discriminate|]. intros _.
      eexists; eexists; split; [reflexivity|]. split; reflexivity.
Qed.

(** An empty cart is refused and nothing is stored. *)
Example empty_cart_rejected :
  create_order (cart [] delivery (Some "PAKKTUN15"%string)) seeded_db
  = (Raise (HTTPError 400 "No items"), seeded_db).
Proof. reflexivity. Qed.

(** C5: [applyCouponPreview] raises 404 when the code resolves to no active
    coupon and raises nothing else; a coupon found with
    [subtotal < min_order] gives a response that is not applied, has
    discount 0 and the reason "Minimum order not met"; a coupon found with
    [subtotal >= min_order] gives an applied response with the computed
    discount.  The database is left as it was. *)
Theorem C5_preview_outcomes db code subtotal :
  (forall e, applyCouponPreview db code subtotal = Raise e <->
             lookup db code = None /\ e = HTTPError 404 "Coupon not found")
  /\ (forall c, lookup db code = Some c ->
        flt subtotal (Coupon.min_order c) = true ->
        exists r, applyCouponPreview db code subtotal = Return r
                  /\ applied r = false
                  /\ response_discount r = zero
                  /\ response_reason r = Some "Minimum order not met"%string)
  /\ (forall c, lookup db code = Some c ->
        fge subtotal (Coupon.min_order c) = true ->
        exists r, applyCouponPreview db code subtotal = Return r
                  /\ applied r = true
                  /\ response_discount r = round2 (spec_discount c subtotal)).
Proof.
  unfold applyCouponPreview. rewrite apply_coupon_run; simpl.
  destruct (lookup db code) as [c|].
  - split; [|split].
    + intros e; split; [|intros [[=] _]].
      destruct (flt subtotal _); discriminate.
    + intros c' [= <-] ->. eexists; repeat split.
    + intros c' [= <-] Hge. rewrite (fge_not_flt _ _ Hge).
      eexists; repeat split.
  - split; [|split]; try discriminate.
    intros e; split; [intros [= <-]; auto | intros [_ ->]; reflexivity].
Qed.

Lemma C5_preview_outcomes_witness :
  applyCouponPreview seeded_db "FAKE10" (float_of_int 600)
  = Raise (HTTPError 404 "Coupon not found")
  /\ (exists r, applyCouponPreview seeded_db "pakktun15" (float_of_int 300) = Return r
                /\ applied r = false
                /\ response_discount r = zero
                /\ response_reason r = Some "Minimum order not met"%string)
  /\ (exists r, applyCouponPreview seeded_db "pakktun15" (float_of_int 600) = Return r
                /\ applied r = true
                /\ response_discount r = float_of_int 90).
Proof.
  split; [|split].
  - apply (proj1 (C5_preview_outcomes seeded_db "FAKE10" (float_of_int 600))).
    split; reflexivity.
  - exact (proj1 (proj2 (C5_preview_outcomes seeded_db "pakktun15" (float_of_int 300)))
             seed_coupon eq_refl eq_refl).
  - exact (proj2 (proj2 (C5_preview_outcomes seeded_db "pakktun15" (float_of_int 600)))
             seed_coupon eq_refl eq_refl).
Defined.




(** C7, as amended: for a cart with items and a non-empty coupon code that
    resolves to a coupon, [applyCouponPreview] on the cart's subtotal
    returns the discount [priceOrder] computes for the cart. *)
Theorem C7_preview_matches_order db payload code c :
  CreateOrderPayload.items payload <> [] ->
  CreateOrderPayload.valid payload ->
  CreateOrderPayload.coupon_code payload = Some code ->
  code <> EmptyString ->
  lookup db code = Some c ->
  Coupon.valid c ->
  exists r,
    applyCouponPreview db code (subtotal_of (CreateOrderPayload.items payload)) = Return r
    /\ option_map pr_discount (priceOrder db payload) = Some (response_discount r).
Proof.
  intros Hne Hvalid Hcode Hcode' Hc [_ Hmin].
  unfold applyCouponPreview, priceOrder.
  rewrite apply_coupon_run, (order_of_create _ _ Hne); simpl.
  rewrite Hc, Hcode, (raw_discount_found _ _ _ _ Hcode' Hc).
  set (s := subtotal_of _).
  destruct (flt s (Coupon.min_order c)) eqn:Hlt.
  - assert (Hge : fge s (Coupon.min_order c) = false).
    { destruct (fge s _) eqn:Hge; [|reflexivity].
      rewrite (fge_not_flt _ _ Hge) in Hlt. discriminate. }
    rewrite Hge. eexists; split; reflexivity.
  - rewrite (not_flt_fge s (Coupon.min_order c)); auto.
    + eexists; split; reflexivity.
    + apply nonneg_not_nan, subtotal_nonneg, Hvalid.
    + apply fge_zero_not_nan, Hmin.
Qed.

Lemma C7_preview_matches_order_witness :
  exists r,
    applyCouponPreview seeded_db "pakktun15"
      (subtotal_of (CreateOrderPayload.items (cart600 delivery (Some "pakktun15"%string))))
    = Return r
    /\ option_map pr_discount
         (priceOrder seeded_db (cart600 delivery (Some "pakktun15"%string)))
       = Some (response_discount r).
Proof.
  apply (C7_preview_matches_order seeded_db
           (cart600 delivery (Some "pakktun15"%string)) "pakktun15" seed_coupon);
    [discriminate | valid_cart | reflexivity | discriminate | reflexivity
    | split; reflexivity].
Defined.

(** C7 as stated fails on the empty code: a coupon stored under the empty
    code is resolved by the preview, which grants its discount, while
    [create_order] treats the empty code as no code and grants nothing. *)
Lemma C7_counterexample :
  CreateOrderPayload.items (cart300 delivery (Some ""%string)) <> []
  /\ CreateOrderPayload.valid (cart300 delivery (Some ""%string))
  /\ lookup blank_db "" = Some blank_coupon
  /\ Coupon.valid blank_coupon
  /\ applyCouponPreview blank_db ""
       (subtotal_of (CreateOrderPayload.items (cart300 delivery (Some ""%string))))
     = Return (Applied (float_of_int 10) "" None)
  /\ option_map pr_discount (priceOrder blank_db (cart300 delivery (Some ""%string)))
     = Some zero
  /\ feq (float_of_int 10) zero = false.
Proof.
  split; [discriminate|]. split; [valid_cart|].
  split; [reflexivity|]. split; [split; reflexivity|].
  split; [reflexivity|]. split; reflexivity.
Qed.

(** C8: with the seeded coupon PAKKTUN15 (percent, value 15, minimum order
    499, active), a delivery cart whose items sum to 600 is priced with
    discount 90, delivery fee 20 and total 530; a cart whose items sum to
    300 does not reach the minimum order, so the discount is 0 and the
    total is the subtotal plus the delivery fee. *)
Theorem C8_pakktun15_scenarios db payload code :
  lookup db code = Some seed_coupon ->
  CreateOrderPayload.items payload <> [] ->
  CreateOrderPayload.coupon_code payload = Some code ->
  (subtotal_of (CreateOrderPayload.items payload) = float_of_int 600 ->
   CreateOrderPayload.delivery_type payload = delivery ->
   priceOrder db payload =
   Some {| pr_subtotal := float_of_int 600;
           pr_discount := float_of_int 90;
           pr_deliveryFee := float_of_int 20;
           pr_total := float_of_int 530 |})
  /\ (subtotal_of (CreateOrderPayload.items payload) = float_of_int 300 ->
      fge (float_of_int 300) (Coupon.min_order seed_coupon) = false
      /\ priceOrder db payload =
         Some {| pr_subtotal := float_of_int 300;
                 pr_discount := zero;
                 pr_deliveryFee :=
                   float_of_int (delivery_fee_of (CreateOrderPayload.delivery_type payload));
                 pr_total :=
                   fadd (float_of_int 300)
                     (float_of_int
                        (delivery_fee_of (CreateOrderPayload.delivery_type payload))) |}).
Proof.
  intros Hc Hne Hcode.
  assert (Hcode' : code <> EmptyString).
  { intros ->. apply lookup_code in Hc. discriminate Hc. }
  unfold priceOrder. rewrite (order_of_create _ _ Hne). simpl.
  unfold pricing_of, built_order, order_doc; simpl.
  rewrite Hcode. split.
  - intros Hsub Hmode.
    rewrite Hsub, Hmode, (raw_discount_found _ _ _ _ Hcode' Hc).
    vm_compute. reflexivity.
  - intros Hsub. split; [reflexivity|].
    rewrite Hsub, (raw_discount_found _ _ _ _ Hcode' Hc).
    destruct (CreateOrderPayload.delivery_type payload); vm_compute; reflexivity.
Qed.

Lemma C8_pakktun15_scenarios_witness :
  coupon seeded_db = [seed_coupon]
  /\ priceOrder seeded_db (cart600 delivery (Some "PAKKTUN15"%string)) =
     Some {| pr_subtotal := float_of_int 600;
             pr_discount := float_of_int 90;
             pr_deliveryFee := float_of_int 20;
             pr_total := float_of_int 530 |}
  /\ priceOrder seeded_db (cart300 delivery (Some "PAKKTUN15"%string)) =
     Some {| pr_subtotal := float_of_int 300;
             pr_discount := zero;
             pr_deliveryFee := float_of_int 20;
             pr_total := float_of_int 320 |}.
Proof.
  split; [reflexivity|]. split.
  - apply (proj1 (C8_pakktun15_scenarios seeded_db
                    (cart600 delivery (Some "PAKKTUN15"%string)) "PAKKTUN15"
                    eq_refl ltac:(discriminate) eq_refl)); reflexivity.
  - apply (proj2 (C8_pakktun15_scenarios seeded_db
                    (cart300 delivery (Some "PAKKTUN15"%string)) "PAKKTUN15"
                    eq_refl ltac:(discriminate) eq_refl)); reflexivity.
Defined.

(** C9: pricing is a function of the coupon collection and the request
    alone.  Two databases with the same coupons give the same pricing and
    the same preview whatever their orders are, so a request priced again
    after other orders were placed gives the same result; neither handler
    changes the coupon collection, and the preview changes nothing at
    all. *)
Theorem C9_deterministic_stateless db1 db2 payload q :
  coupon db1 = coupon db2 ->
  priceOrder db1 payload = priceOrder db2 payload
  /\ fst (apply_coupon q db1) = fst (apply_coupon q db2)
  /\ coupon (snd (create_order payload db1)) = coupon db1
  /\ snd (apply_coupon q db1) = db1
  /\ (forall earlier,
        priceOrder (snd (create_order earlier db1)) payload = priceOrder db1 payload).
Proof.
  intros Hcoupons.
  assert (Hprice : forall a b, coupon a = coupon b ->
                     priceOrder a payload = priceOrder b payload).
  { intros a b Hab. unfold priceOrder.
    destruct (CreateOrderPayload.items payload) as [|i items] eqn:E.
    - rewrite !create_order_empty by exact E. reflexivity.
    - rewrite !order_of_create by congruence. simpl.
      unfold pricing_of, built_order; simpl.
      now rewrite (raw_discount_coupons a b _ _ Hab). }
  assert (Hkept : forall p, coupon (snd (create_order p db1)) = coupon db1).
  { intros p. destruct (CreateOrderPayload.items p) as [|i items] eqn:E.
    - rewrite (create_order_empty _ _ E). reflexivity.
    - rewrite create_order_run by congruence. reflexivity. }
  split; [exact (Hprice db1 db2 Hcoupons)|].
  split; [rewrite !apply_coupon_run; unfold lookup; simpl; now rewrite Hcoupons|].
  split; [apply Hkept|].
  split; [rewrite apply_coupon_run; reflexivity|].
  intros earlier. apply Hprice, Hkept.
Qed.

Lemma C9_deterministic_stateless_witness :
  coupon seeded_db
  = coupon (snd (create_order (cart300 takeaway None) seeded_db))
  /\ order seeded_db
     <> order (snd (create_order (cart300 takeaway None) seeded_db))
  /\ priceOrder seeded_db (cart600 delivery (Some "pakktun15"%string))
     = priceOrder (snd (create_order (cart300 takeaway None) seeded_db))
         (cart600 delivery (Some "pakktun15"%string)).
Proof.
  split; [reflexivity|]. split; [discriminate|].
  exact (proj1 (C9_deterministic_stateless seeded_db
                  (snd (create_order (cart300 takeaway None) seeded_db))
                  (cart600 delivery (Some "pakktun15"%string))
                  {| ApplyCouponPayload.code := "pakktun15";
                     ApplyCouponPayload.subtotal := float_of_int 600 |}
                  eq_refl)).
Defined.

(** C10: the order [create_order] stores and returns carries the request's
    [coupon_code] unchanged, also when the code resolves to no active
    coupon or the coupon's minimum order is not reached and the discount is
    0; the document depends on the coupon collection through the discount
    alone, so it does not tell a missing coupon from an ineligible one. *)
Theorem C10_coupon_code_recorded db payload :
  CreateOrderPayload.items payload <> [] ->
  exists oid o,
    fst (create_order payload db)
    = Return {| resp_order := Some (oid, o); resp_payment := payment_of payload oid o |}
    /\ In (oid, o) (order (snd (create_order payload db)))
    /\ Order.coupon_code o = CreateOrderPayload.coupon_code payload
    /\ (forall code, CreateOrderPayload.coupon_code payload = Some code ->
          lookup db code = None -> Order.discount o = zero)
    /\ (forall code c, CreateOrderPayload.coupon_code payload = Some code ->
          lookup db code = Some c ->
          fge (subtotal_of (CreateOrderPayload.items payload)) (Coupon.min_order c) = false ->
          Order.discount o = zero)
    /\ (forall db',
          raw_discount db' (CreateOrderPayload.coupon_code payload)
            (subtotal_of (CreateOrderPayload.items payload))
          = raw_discount db (CreateOrderPayload.coupon_code payload)
              (subtotal_of (CreateOrderPayload.items payload)) ->
          order_of (create_order payload db') = Some o).
Proof.
  intros Hne. exists (fresh_id (order db)), (built_order db payload).
  rewrite (create_order_run _ _ Hne); simpl.
  split; [reflexivity|]. split; [apply in_or_app; right; left; reflexivity|].
  split; [reflexivity|]. split; [|split].
  - intros code Hcode Hnone.
    now rewrite Hcode, (raw_discount_not_found _ _ _ Hnone).
  - intros code c Hcode Hc Hge.
    now rewrite Hcode, (raw_discount_ineligible _ _ _ _ Hc Hge).
  - intros db' Hsame. rewrite (order_of_create _ _ Hne).
    unfold built_order. now rewrite Hsame.
Qed.

Lemma C10_coupon_code_recorded_witness :
  exists oid o,
    fst (create_order (cart300 delivery (Some "pakktun15"%string)) seeded_db)
    = Return {| resp_order := Some (oid, o);
                resp_payment :=
                  payment_of (cart300 delivery (Some "pakktun15"%string)) oid o |}
    /\ In (oid, o)
         (order (snd (create_order (cart300 delivery (Some "pakktun15"%string)) seeded_db)))
    /\ Order.coupon_code o = Some "pakktun15"%string
    /\ Order.discount o = zero
    /\ order_of (create_order (cart300 delivery (Some "pakktun15"%string)) empty_db)
       = Some o.
Proof.
  destruct (C10_coupon_code_recorded seeded_db
              (cart300 delivery (Some "pakktun15"%string)) ltac:(discriminate))
    as (oid & o & Hresp & Hin & Hcode & _ & Hineligible & Hsame).
  exists oid, o.
  split; [exact Hresp|]. split; [exact Hin|]. split; [exact Hcode|].
  split; [exact (Hineligible "pakktun15"%string seed_coupon eq_refl eq_refl eq_refl)|].
  exact (Hsame empty_db eq_refl).
Defined.


(** * Further properties of the handlers *)

(** ** The order collection *)

Section OrderStore.

Lemma stored_id db oid d : stored db oid = Some d -> fst d = oid /\ In d (order db).
Proof.
  unfold stored; intros H. apply find_some in H as [Hin H].
  apply Nat.eqb_eq in H. auto.
Qed.

Lemma stored_none db oid :
  stored db oid = None <-> forall d, In d (order db) -> fst d <> oid.
Proof.
  unfold stored; split.
  - intros H d Hin E. apply (find_none _ _ H) in Hin.
    apply Nat.eqb_neq in Hin. contradiction.
  - intros H. destruct (find _ _) as [d|] eqn:E; [|reflexivity].
    apply find_some in E as [Hin E]. apply Nat.eqb_eq in E.
    exfalso. exact (H d Hin E).
Qed.

Lemma find_update_first oid oid' f docs :
  find (fun d => Nat.eqb (fst d) oid') (update_first oid f docs) =
  if Nat.eqb oid oid'
  then option_map (fun d => (fst d, f (snd d)))
         (find (fun d => Nat.eqb (fst d) oid') docs)
  else find (fun d => Nat.eqb (fst d) oid') docs.
Proof.
  unfold ObjectId in *.
  induction docs as [|[i o] docs IH]; simpl; [destruct (Nat.eqb oid oid'); reflexivity|].
  unfold ObjectId in *.
  destruct (Nat.eqb_spec i oid) as [->|E1]; simpl.
  - destruct (Nat.eqb oid oid'); reflexivity.
  - destruct (Nat.eqb_spec i oid') as [->|E2]; [|exact IH].
    destruct (Nat.eqb_spec oid oid'); [congruence | reflexivity].
Qed.

Lemma update_first_absent oid f docs :
  find (fun d => Nat.eqb (fst d) oid) docs = None -> update_first oid f docs = docs.
Proof.
  induction docs as [|d docs IH]; simpl; [reflexivity|].
  unfold ObjectId in *.
  destruct (Nat.eqb (fst d) oid); [discriminate|].
  intros H. now rewrite (IH H).
Qed.

Lemma update_first_map {A} (g : Order.t -> A) oid f docs :
  (forall o, g (f o) = g o) ->
  List.map (fun d => (fst d, g (snd d))) (update_first oid f docs) =
  List.map (fun d => (fst d, g (snd d))) docs.
Proof.
  intros Hg. induction docs as [|d docs IH]; simpl; [reflexivity|].
  unfold ObjectId in *.
  destruct (Nat.eqb (fst d) oid); simpl; [now rewrite Hg | now rewrite IH].
Qed.

Lemma find_app_found {A} (P : A -> bool) l l' d :
  find P l = Some d -> find P (l ++ l') = Some d.
Proof.
  induction l as [|x l IH]; simpl; [discriminate|].
  destruct (P x); auto.
Qed.

Lemma set_upd_frozen s o : frozen_fields (set_upd s o) = frozen_fields o.
Proof. reflexivity. Qed.

Variable ObjectId_of_str : string -> option ObjectId.

Lemma get_order_run order_id db :
  get_order ObjectId_of_str order_id db =
  (match ObjectId_of_str order_id with
   | None => Raise (HTTPError 400 "Invalid id")
   | Some oid =>
       match stored db oid with
       | None => Raise (HTTPError 404 "Not found")
       | Some d => Return (Some d)
       end
   end, db).
Proof.
  unfold get_order. destruct (ObjectId_of_str order_id) as [oid|]; [|reflexivity].
  unfold bind, find_one_order, stored.
  destruct (find _ _); reflexivity.
Qed.

Lemma update_order_status_run order_id payload db :
  update_order_status ObjectId_of_str order_id payload db =
  match ObjectId_of_str order_id with
  | None => (Raise (HTTPError 400 "Invalid id"), db)
  | Some oid =>
      (Return (option_map
                 (fun d => (fst d, set_upd (UpdateStatusPayload.status payload) (snd d)))
                 (stored db oid)),
       {| coupon := coupon db;
          order := update_first oid (set_upd (UpdateStatusPayload.status payload))
                     (order db) |})
  end.
Proof.
  unfold update_order_status. destruct (ObjectId_of_str order_id) as [oid|]; [|reflexivity].
  unfold bind, update_one_order, find_one_order, ret, stored; simpl.
  rewrite find_update_first, Nat.eqb_refl.
  destruct (find _ _); reflexivity.
Qed.

(** X1: [get_order] reads: the database is left as it was.  It raises 400
    exactly when the id is not an ObjectId, 404 exactly when the id is one
    that no stored order has, and otherwise returns the first stored order
    with that id. *)
Theorem get_order_outcomes order_id db :
  snd (get_order ObjectId_of_str order_id db) = db
  /\ (forall e,
        fst (get_order ObjectId_of_str order_id db) = Raise e <->
        (ObjectId_of_str order_id = None /\ e = HTTPError 400 "Invalid id")
        \/ (exists oid, ObjectId_of_str order_id = Some oid
                        /\ (forall d, In d (order db) -> fst d <> oid)
                        /\ e = HTTPError 404 "Not found"))
  /\ (forall r,
        fst (get_order ObjectId_of_str order_id db) = Return r <->
        exists oid o, ObjectId_of_str order_id = Some oid
                      /\ stored db oid = Some (oid, o)
                      /\ r = Some (oid, o)).
Proof.
  rewrite get_order_run; simpl. split; [reflexivity|].
  destruct (ObjectId_of_str order_id) as [oid|].
  - destruct (stored db oid) as [d|] eqn:E.
    + split.
      * intros e; split; [discriminate|].
        intros [[[=] _] | (oid' & [= <-] & Hno & _)].
        apply stored_none in Hno. congruence.
      * intros r; split.
        -- intros [= <-]. destruct d as [i o].
           destruct (stored_id _ _ _ E) as [Hi _]; simpl in Hi; subst i.
           exists oid, o; auto.
        -- intros (oid' & o & [= <-] & Hs & ->). congruence.
    + split.
      * intros e; split.
        -- intros [= <-]. right. exists oid. rewrite <- stored_none. auto.
        -- intros [[[=] _] | (oid' & _ & _ & ->)]; reflexivity.
      * intros r; split; [discriminate|].
        intros (oid' & o & [= <-] & Hs & _). congruence.
  - split.
    + intros e; split.
      * intros [= <-]. left; auto.
      * intros [[_ ->] | (oid' & [=] & _)]; reflexivity.
    + intros r; split; [discriminate|]. intros (oid' & o & [=] & _).
Qed.

(** X2: an order that was placed can be fetched: once [create_order] has
    returned an order, [get_order] and [track_order] on its id return that
    very document and change nothing; and the orders stored before are
    still returned as they were. *)
Theorem placed_order_is_fetched payload db resp db' oid o order_id :
  create_order payload db = (Return resp, db') ->
  resp_order resp = Some (oid, o) ->
  ObjectId_of_str order_id = Some oid ->
  get_order ObjectId_of_str order_id db' = (Return (Some (oid, o)), db')
  /\ track_order ObjectId_of_str order_id db' = (Return (Some (oid, o)), db')
  /\ (forall earlier_id earlier,
        ObjectId_of_str earlier_id = Some (fst earlier) ->
        stored db (fst earlier) = Some earlier ->
        get_order ObjectId_of_str earlier_id db' = (Return (Some earlier), db')).
Proof.
  intros Hcreate Hresp Hid.
  destruct (CreateOrderPayload.items payload) as [|i items] eqn:E.
  { rewrite (create_order_empty _ _ E) in Hcreate. discriminate. }
  rewrite create_order_run in Hcreate by congruence.
  injection Hcreate as <- <-. simpl in Hresp. injection Hresp as <- <-.
  assert (Hnew : stored
            {| coupon := coupon db;
               order := order db ++ [(fresh_id (order db), built_order db payload)] |}
            (fresh_id (order db))
          = Some (fresh_id (order db), built_order db payload))
    by apply find_inserted.
  unfold track_order. rewrite !get_order_run, Hid, Hnew.
  split; [reflexivity|]. split; [reflexivity|].
  intros earlier_id earlier Hid' Hold.
  rewrite get_order_run, Hid'. unfold stored in *; simpl.
  now rewrite (find_app_found _ _ _ _ Hold).
Qed.

End OrderStore.

Lemma placed_order_is_fetched_witness :
  get_order sample_ObjectId_of_str "1"
    (snd (create_order (cart600 delivery (Some "pakktun15"%string)) seeded_db))
  = (Return (Some (1%nat, built_order seeded_db (cart600 delivery (Some "pakktun15"%string)))),
     snd (create_order (cart600 delivery (Some "pakktun15"%string)) seeded_db)).
Proof.
  refine (proj1 (placed_order_is_fetched sample_ObjectId_of_str
                   (cart600 delivery (Some "pakktun15"%string)) seeded_db
                   {| resp_order :=
                        Some (1%nat,
                              built_order seeded_db
                                (cart600 delivery (Some "pakktun15"%string)));
                      resp_payment := None |}
                   _ 1%nat _ "1" _ eq_refl eq_refl)).
  vm_compute. reflexivity.
Defined.

(** ** Status updates *)

Section StatusUpdates.

Variable ObjectId_of_str : string -> option ObjectId.

Lemma db_eta db : {| coupon := coupon db; order := order db |} = db.
Proof. destruct db; reflexivity. Qed.

(** X3: a status update of a stored order returns the order with the new
    status, and with [eta_minutes] 15 when it goes out for delivery; every
    other field of [Order], every other order, the sequence of ids and the
    coupons are as before, and [get_order] then returns the updated
    order. *)
Theorem status_update_of_stored_order order_id payload db oid o :
  ObjectId_of_str order_id = Some oid ->
  stored db oid = Some (oid, o) ->
  let status := UpdateStatusPayload.status payload in
  let db' := snd (update_order_status ObjectId_of_str order_id payload db) in
  exists o',
    fst (update_order_status ObjectId_of_str order_id payload db) = Return (Some (oid, o'))
    /\ get_order ObjectId_of_str order_id db' = (Return (Some (oid, o')), db')
    /\ Order.status o' = status
    /\ Order.eta_minutes o' =
       match status with
       | out_for_delivery => Some 15
       | _ => Order.eta_minutes o
       end
    /\ frozen_fields o' = frozen_fields o
    /\ (forall other, other <> oid -> stored db' other = stored db other)
    /\ List.map fst (order db') = List.map fst (order db)
    /\ coupon db' = coupon db.
Proof.
  intros Hid Hstored status db'. subst db'.
  rewrite update_order_status_run, Hid, Hstored; simpl.
  exists (set_upd status o). split; [reflexivity|]. split.
  { rewrite get_order_run, Hid. unfold stored in *; simpl.
    rewrite find_update_first, Nat.eqb_refl, Hstored. reflexivity. }
  split; [reflexivity|]. split; [reflexivity|]. split; [reflexivity|].
  split; [|split; [|reflexivity]].
  - intros other Hother. unfold stored; simpl. rewrite find_update_first.
    destruct (Nat.eqb_spec oid other); [congruence | reflexivity].
  - pose proof (update_first_map (fun _ => tt) oid (set_upd status) (order db)
                  (fun _ => eq_refl)) as H.
    apply (f_equal (List.map fst)) in H. now rewrite !map_map in H.
Qed.

(** X4: a status update raises only on an id that is not an ObjectId, with
    400, and changes nothing then.  On an id that no stored order has it
    does not raise 404: it returns no document and changes nothing. *)
Theorem status_update_of_missing_order order_id payload db :
  (forall e,
      fst (update_order_status ObjectId_of_str order_id payload db) = Raise e <->
      ObjectId_of_str order_id = None /\ e = HTTPError 400 "Invalid id")
  /\ (ObjectId_of_str order_id = None ->
      snd (update_order_status ObjectId_of_str order_id payload db) = db)
  /\ (forall oid,
        ObjectId_of_str order_id = Some oid ->
        (forall d, In d (order db) -> fst d <> oid) ->
        update_order_status ObjectId_of_str order_id payload db = (Return None, db)).
Proof.
  rewrite update_order_status_run.
  destruct (ObjectId_of_str order_id) as [oid|]; simpl.
  - split; [|split].
    + intros e; split; [discriminate | intros [[=] _]].
    + discriminate.
    + intros oid' [= <-] Hno. apply stored_none in Hno.
      rewrite Hno; simpl. unfold stored in Hno.
      now rewrite (update_first_absent oid _ (order db) Hno), db_eta.
  - split; [|split]; [|reflexivity|discriminate].
    intros e; split; [intros [= <-]; auto | intros [_ ->]; reflexivity].
Qed.

Lemma run_updates_step order_id payload requests db :
  run_updates ObjectId_of_str ((order_id, payload) :: requests) db =
  run_updates ObjectId_of_str requests
    (snd (update_order_status ObjectId_of_str order_id payload db)).
Proof. reflexivity. Qed.

(** X5: no run of status updates adds, removes or reorders orders,
    changes a field of [Order] other than [status] and [eta_minutes] (so
    the pricing, the items and the coupon code stay as placed), or touches
    the coupons. *)
Theorem status_updates_keep_orders requests db :
  List.map (fun d => (fst d, frozen_fields (snd d)))
    (order (run_updates ObjectId_of_str requests db))
  = List.map (fun d => (fst d, frozen_fields (snd d))) (order db)
  /\ coupon (run_updates ObjectId_of_str requests db) = coupon db.
Proof.
  revert db. induction requests as [|[order_id payload] requests IH]; intros db.
  - split; reflexivity.
  - rewrite run_updates_step. destruct (IH (snd
      (update_order_status ObjectId_of_str order_id payload db))) as [IH1 IH2].
    rewrite IH1, IH2, update_order_status_run.
    destruct (ObjectId_of_str order_id) as [oid|]; simpl; [|split; reflexivity].
    split; [|reflexivity].
    apply update_first_map. intros o. apply set_upd_frozen.
Qed.

Lemma update_first_updated_from oid s docs :
  s <> pending ->
  Forall2 (fun d d1 => d1 = d \/ d1 = (fst d, set_upd s (snd d)))
    docs (update_first oid (set_upd s) docs).
Proof.
  intros Hs. induction docs as [|d docs IH]; simpl; [constructor|].
  destruct (Nat.eqb (fst d) oid).
  - constructor; [now right|].
    clear. induction docs; constructor; auto.
  - constructor; [now left | exact IH].
Qed.

Lemma Forall2_compose {A} (R1 R2 R : A -> A -> Prop) l1 l2 l3 :
  (forall a b c, R1 a b -> R2 b c -> R a c) ->
  Forall2 R1 l1 l2 -> Forall2 R2 l2 l3 -> Forall2 R l1 l3.
Proof.
  intros H H12. revert l3. induction H12; intros l3 H23; inversion H23; subst;
    constructor; eauto.
Qed.

Lemma Forall2_same {A} (R : A -> A -> Prop) l :
  (forall a, R a a) -> Forall2 R l l.
Proof. intros H. induction l; constructor; auto. Qed.

(** X6: an order never returns to [pending]: after any run of status updates
    whose payloads passed validation, an order that is [pending] is exactly
    as it was before the run, and [eta_minutes] of any order is what it was
    or 15. *)
Theorem status_updates_leave_pending requests db :
  Forall (fun r => UpdateStatusPayload.valid (snd r)) requests ->
  Forall2 updated_from (order db) (order (run_updates ObjectId_of_str requests db)).
Proof.
  revert db. induction requests as [|[order_id payload] requests IH]; intros db Hvalid.
  - apply Forall2_same. intros d; now left.
  - inversion Hvalid as [|r rs Hp Hrest]; subst. simpl in Hp.
    rewrite run_updates_step. specialize (IH (snd
      (update_order_status ObjectId_of_str order_id payload db)) Hrest).
    rewrite update_order_status_run in *.
    destruct (ObjectId_of_str order_id) as [oid|]; simpl in *; [|exact IH].
    refine (Forall2_compose _ _ _ _ _ _ _
              (update_first_updated_from oid _ (order db) Hp) IH).
    intros a b c [-> | ->]; [auto|].
    intros [-> | [Hc Heta]]; right; simpl.
    + split; [exact Hp|].
      destruct (UpdateStatusPayload.status payload); auto.
    + split; [exact Hc|]. simpl in Heta.
      destruct (UpdateStatusPayload.status payload); tauto.
Qed.

End StatusUpdates.

Lemma status_update_of_stored_order_witness :
  exists o',
    fst (update_order_status sample_ObjectId_of_str "1"
           {| UpdateStatusPayload.status := out_for_delivery |} placed_db)
    = Return (Some (1%nat, o'))
    /\ Order.status o' = out_for_delivery
    /\ Order.eta_minutes o' = Some 15
    /\ frozen_fields o'
       = frozen_fields (built_order seeded_db (cart600 delivery (Some "pakktun15"%string))).
Proof.
  destruct (status_update_of_stored_order sample_ObjectId_of_str "1"
              {| UpdateStatusPayload.status := out_for_delivery |} placed_db 1%nat
              (built_order seeded_db (cart600 delivery (Some "pakktun15"%string)))
              eq_refl eq_refl)
    as (o' & Hret & _ & Hstatus & Heta & Hfrozen & _).
  exists o'. split; [exact Hret|]. split; [exact Hstatus|]. split; [exact Heta|].
  exact Hfrozen.
Defined.

Lemma status_updates_leave_pending_witness :
  Forall2 updated_from (order placed_db)
    (order (run_updates sample_ObjectId_of_str
              [("1"%string, {| UpdateStatusPayload.status := out_for_delivery |});
               ("1"%string, {| UpdateStatusPayload.status := delivered |});
               ("7"%string, {| UpdateStatusPayload.status := cancelled |});
               ("soon"%string, {| UpdateStatusPayload.status := accepted |})]
              placed_db)).
Proof.
  apply status_updates_leave_pending.
  repeat constructor; simpl; discriminate.
Defined.

(** ** The user profile *)

Section UserProfile.

Lemma find_update_first_user p q f users :
  (forall u, UserDoc.phone (f u) = UserDoc.phone u) ->
  find_user q (update_first_user p f users) =
  if String.eqb p q then option_map f (find_user q users) else find_user q users.
Proof.
  intros Hf. unfold find_user.
  induction users as [|u users IH]; simpl; [destruct (String.eqb p q); reflexivity|].
  destruct (String.eqb_spec (UserDoc.phone u) p) as [E1|E1]; simpl.
  - rewrite Hf, E1. destruct (String.eqb p q); reflexivity.
  - destruct (String.eqb_spec (UserDoc.phone u) q) as [E2|E2]; [|exact IH].
    destruct (String.eqb_spec p q); [congruence | reflexivity].
Qed.

Lemma length_update_first_user p f users :
  List.length (update_first_user p f users) = List.length users.
Proof.
  induction users as [|u users IH]; simpl; [reflexivity|].
  destruct (String.eqb _ _); simpl; congruence.
Qed.

Lemma find_user_app_new q users u :
  find_user q (users ++ [u]) =
  match find_user q users with
  | Some v => Some v
  | None => if String.eqb (UserDoc.phone u) q then Some u else None
  end.
Proof.
  unfold find_user. induction users as [|v users IH]; simpl; [reflexivity|].
  destruct (String.eqb (UserDoc.phone v) q); [reflexivity | exact IH].
Qed.

Lemma existsb_eqb_In x l : existsb (String.eqb x) l = true <-> In x l.
Proof.
  rewrite existsb_exists. split.
  - intros (y & Hin & E). apply String.eqb_eq in E. now subst.
  - intros H. exists x. split; [exact H | apply String.eqb_refl].
Qed.

Lemma with_favorites_back u l : with_favorites (with_favorites u l) (UserDoc.favorites u) = u.
Proof. destruct u; reflexivity. Qed.

Lemma with_addresses_back u l : with_addresses (with_addresses u l) (UserDoc.addresses u) = u.
Proof. destruct u; reflexivity. Qed.

Lemma favs_pull item u x :
  In x (UserDoc.favs (pull_favorite item u)) <-> In x (UserDoc.favs u) /\ x <> item.
Proof.
  unfold pull_favorite, UserDoc.favs; simpl.
  destruct (UserDoc.favorites u) as [l|]; simpl; [|tauto].
  rewrite filter_In, negb_true_iff. split; intros [H1 H2]; split; auto.
  - intros ->. now rewrite String.eqb_refl in H2.
  - now apply String.eqb_neq.
Qed.

Lemma favs_add_to_set item u x :
  In x (UserDoc.favs (add_to_set_favorite item u)) <-> In x (UserDoc.favs u) \/ x = item.
Proof.
  unfold add_to_set_favorite. unfold UserDoc.favs at 1; simpl.
  destruct (existsb (String.eqb item) (UserDoc.favs u)) eqn:E.
  - apply existsb_eqb_In in E. split; [auto | intros [H | ->]; auto].
  - rewrite in_app_iff; simpl. intuition.
Qed.

Lemma NoDup_pull item u :
  NoDup (UserDoc.favs u) -> NoDup (UserDoc.favs (pull_favorite item u)).
Proof.
  unfold pull_favorite, UserDoc.favs; simpl.
  destruct (UserDoc.favorites u) as [l|]; simpl; [|auto].
  apply NoDup_filter.
Qed.

Lemma NoDup_add_to_set item u :
  NoDup (UserDoc.favs u) -> NoDup (UserDoc.favs (add_to_set_favorite item u)).
Proof.
  unfold add_to_set_favorite. unfold UserDoc.favs at 2; simpl.
  destruct (existsb (String.eqb item) (UserDoc.favs u)) eqn:E; [auto|].
  intros H. apply NoDup_app; [exact H | repeat constructor; simpl; tauto |].
  intros x Hx [<- | []].
  apply existsb_eqb_In in Hx. congruence.
Qed.

Lemma toggle_favorite_step item_id phone users u :
  phone <> EmptyString ->
  find_user phone users = Some u ->
  exists action u',
    fst (toggle_favorite item_id (Some phone) users) = Return action
    /\ find_user phone (snd (toggle_favorite item_id (Some phone) users)) = Some u'
    /\ (action = added <-> ~ In item_id (UserDoc.favs u))
    /\ (In item_id (UserDoc.favs u') <-> ~ In item_id (UserDoc.favs u))
    /\ (forall x, x <> item_id -> (In x (UserDoc.favs u') <-> In x (UserDoc.favs u)))
    /\ (NoDup (UserDoc.favs u) -> NoDup (UserDoc.favs u'))
    /\ with_favorites u' (UserDoc.favorites u) = u
    /\ (forall q, q <> phone ->
          find_user q (snd (toggle_favorite item_id (Some phone) users)) = find_user q users)
    /\ List.length (snd (toggle_favorite item_id (Some phone) users)) = List.length users.
Proof.
  intros Hphone Hu. unfold toggle_favorite.
  rewrite (truthy_nonempty _ Hphone), Hu.
  destruct (existsb (String.eqb item_id) (UserDoc.favs u)) eqn:E; simpl.
  - apply existsb_eqb_In in E.
    exists removed, (pull_favorite item_id u).
    split; [reflexivity|]. split.
    { rewrite find_update_first_user by reflexivity.
      now rewrite String.eqb_refl, Hu. }
    split; [split; [discriminate | tauto]|].
    split; [rewrite favs_pull; tauto|].
    split; [intros x Hx; rewrite favs_pull; tauto|].
    split; [apply NoDup_pull|].
    split; [apply with_favorites_back|].
    split; [|apply length_update_first_user].
    intros q Hq. rewrite find_update_first_user by reflexivity.
    destruct (String.eqb_spec phone q); [congruence | reflexivity].
  - assert (Hnot : ~ In item_id (UserDoc.favs u)).
    { intros H. apply existsb_eqb_In in H. congruence. }
    exists added, (add_to_set_favorite item_id u).
    split; [reflexivity|]. split.
    { rewrite find_update_first_user by reflexivity.
      now rewrite String.eqb_refl, Hu. }
    split; [tauto|].
    split; [rewrite favs_add_to_set; tauto|].
    split; [intros x Hx; rewrite favs_add_to_set; tauto|].
    split; [apply NoDup_add_to_set|].
    split; [apply with_favorites_back|].
    split; [|apply length_update_first_user].
    intros q Hq. rewrite find_update_first_user by reflexivity.
    destruct (String.eqb_spec phone q); [congruence | reflexivity].
Qed.

(** X7: toggling a favorite flips it: for a user that exists, the item is a
    favorite afterwards exactly when it was not before, and the answer is
    [added] exactly then; the other favorites, the other fields of the
    user and the other users are as before, and a list of favorites
    without repeats stays without repeats. *)
Theorem toggle_favorite_flips item_id phone users u :
  phone <> EmptyString ->
  find_user phone users = Some u ->
  exists action u',
    fst (toggle_favorite item_id (Some phone) users) = Return action
    /\ find_user phone (snd (toggle_favorite item_id (Some phone) users)) = Some u'
    /\ (action = added <-> ~ In item_id (UserDoc.favs u))
    /\ (In item_id (UserDoc.favs u') <-> ~ In item_id (UserDoc.favs u))
    /\ (forall x, x <> item_id -> (In x (UserDoc.favs u') <-> In x (UserDoc.favs u)))
    /\ (NoDup (UserDoc.favs u) -> NoDup (UserDoc.favs u'))
    /\ with_favorites u' (UserDoc.favorites u) = u
    /\ (forall q, q <> phone ->
          find_user q (snd (toggle_favorite item_id (Some phone) users)) = find_user q users)
    /\ List.length (snd (toggle_favorite item_id (Some phone) users)) = List.length users.
Proof. exact (toggle_favorite_step item_id phone users u). Qed.

(** X8: toggling the same favorite twice gives the two answers [added] and
    [removed], one each, and leaves the user with the favorites it had:
    the same items are favorites as before the two calls. *)
Theorem toggle_favorite_twice item_id phone users u :
  phone <> EmptyString ->
  find_user phone users = Some u ->
  let first := toggle_favorite item_id (Some phone) users in
  let second := toggle_favorite item_id (Some phone) (snd first) in
  exists a1 a2 u'',
    fst first = Return a1
    /\ fst second = Return a2
    /\ a1 <> a2
    /\ find_user phone (snd second) = Some u''
    /\ (forall x, In x (UserDoc.favs u'') <-> In x (UserDoc.favs u))
    /\ with_favorites u'' (UserDoc.favorites u) = u.
Proof.
  intros Hphone Hu first second. subst first second.
  destruct (toggle_favorite_step item_id phone users u Hphone Hu)
    as (a1 & u' & H1 & Hu' & Ha1 & Hin1 & Hother1 & _ & Hrest1 & _).
  destruct (toggle_favorite_step item_id phone _ u' Hphone Hu')
    as (a2 & u'' & H2 & Hu'' & Ha2 & Hin2 & Hother2 & _ & Hrest2 & _).
  exists a1, a2, u''. split; [exact H1|]. split; [exact H2|].
  split.
  { intros ->. destruct a2.
    - assert (In item_id (UserDoc.favs u)).
      { destruct (in_dec string_dec item_id (UserDoc.favs u)) as [H|H]; [exact H|].
        apply Ha1 in H. discriminate. }
      assert (In item_id (UserDoc.favs u')).
      { destruct (in_dec string_dec item_id (UserDoc.favs u')) as [H'|H']; [exact H'|].
        apply Ha2 in H'. discriminate. }
      tauto.
    - assert (H : ~ In item_id (UserDoc.favs u)) by now apply Ha1.
      assert (H' : ~ In item_id (UserDoc.favs u')) by now apply Ha2.
      tauto. }
  split; [exact Hu''|]. split.
  - intros x. destruct (string_dec x item_id) as [->|Hx].
    + rewrite Hin2, Hin1.
      destruct (in_dec string_dec item_id (UserDoc.favs u)); tauto.
    + rewrite (Hother2 x Hx). apply Hother1, Hx.
  - rewrite <- Hrest1 in *. rewrite <- Hrest2. simpl.
    destruct u''; reflexivity.
Qed.

End UserProfile.

Section UserProfileMore.

(** X9: adding an address never fails for a caller that sent its phone: the
    user is created when there is none, the address is the last of the
    user's addresses and the earlier ones are kept in order, [get_me]
    returns that user afterwards, and no other user is touched. *)
Theorem add_address_appends payload phone users :
  phone <> EmptyString ->
  let after := snd (add_address payload (Some phone) users) in
  exists u',
    fst (add_address payload (Some phone) users) = Return (Some u')
    /\ get_me (Some phone) after = (Return u', after)
    /\ UserDoc.addrs u' =
       match find_user phone users with
       | Some u => UserDoc.addrs u ++ [payload]
       | None => [payload]
       end
    /\ match find_user phone users with
       | Some u => with_addresses u' (UserDoc.addresses u) = u
                   /\ List.length after = List.length users
       | None => UserDoc.favs u' = [] /\ List.length after = S (List.length users)
       end
    /\ (forall q, q <> phone -> find_user q after = find_user q users).
Proof.
  intros Hphone after. subst after. unfold add_address, get_me.
  rewrite (truthy_nonempty _ Hphone); simpl. unfold upsert_push_address.
  destruct (find_user phone users) as [u|] eqn:Hu.
  - exists (push_address payload u).
    rewrite find_update_first_user by reflexivity.
    rewrite String.eqb_refl, Hu; simpl.
    split; [reflexivity|]. split; [reflexivity|]. split; [reflexivity|].
    split; [split; [apply with_addresses_back | apply length_update_first_user]|].
    intros q Hq. rewrite find_update_first_user by reflexivity.
    destruct (String.eqb_spec phone q); [congruence | reflexivity].
  - eexists. rewrite find_user_app_new, Hu; simpl. rewrite String.eqb_refl.
    split; [reflexivity|]. split; [reflexivity|]. split; [reflexivity|].
    split; [split; [reflexivity|]|].
    + rewrite length_app; simpl. apply Nat.add_1_r.
    + intros q Hq. rewrite find_user_app_new; simpl.
      destruct (find_user q users); [reflexivity|].
      destruct (String.eqb_spec phone q); [congruence | reflexivity].
Qed.

(** Splitting a statement on what a handler raises into its cases. *)
Ltac split_all :=
  repeat match goal with
    | |- _ /\ _ => split
    | |- forall _, _ <-> _ => intro
    | |- _ <-> _ => split
    end.

Ltac raise_cases :=
  intros; simpl in *;
  repeat match goal with
    | H : _ \/ _ |- _ => destruct H
    | H : _ /\ _ |- _ => destruct H
    | H : exists _, _ |- _ => destruct H
    | H : Raise _ = Raise _ |- _ => injection H as H
    | H : Some _ = Some _ |- _ => injection H as H
    end;
  subst; try discriminate; try congruence; try reflexivity;
  try (split; [reflexivity | congruence]);
  try (left; split; [reflexivity | congruence]);
  try (right; eexists; split; [reflexivity|]; split; [discriminate|];
       split; [assumption | reflexivity]).

(** X10: the profile handlers raise 401 exactly when the phone header is absent
    or empty; [get_me] and [toggle_favorite] raise 404 exactly when the
    header names a phone no user has, [add_address] never does; and a
    handler that raises leaves the users as they were. *)
Theorem profile_errors x_user_phone item_id payload users :
  let unauthorized e :=
    header_missing x_user_phone = true /\ e = HTTPError 401 "Missing phone header" in
  let unknown e :=
    exists phone, x_user_phone = Some phone /\ phone <> EmptyString
                  /\ find_user phone users = None
                  /\ e = HTTPError 404 "User not found" in
  (forall e, fst (get_me x_user_phone users) = Raise e <-> unauthorized e \/ unknown e)
  /\ (forall e, fst (toggle_favorite item_id x_user_phone users) = Raise e <->
                unauthorized e \/ unknown e)
  /\ (forall e, fst (add_address payload x_user_phone users) = Raise e <-> unauthorized e)
  /\ (forall e, fst (get_me x_user_phone users) = Raise e ->
                snd (get_me x_user_phone users) = users)
  /\ (forall e, fst (toggle_favorite item_id x_user_phone users) = Raise e ->
                snd (toggle_favorite item_id x_user_phone users) = users)
  /\ (forall e, fst (add_address payload x_user_phone users) = Raise e ->
                snd (add_address payload x_user_phone users) = users).
Proof.
  intros unauthorized unknown. subst unauthorized unknown.
  unfold get_me, toggle_favorite, add_address, header_missing.
  destruct x_user_phone as [[|c phone]|]; simpl.
  - split_all; raise_cases.
  - destruct (find_user (String c phone) users) as [u|] eqn:Hu.
    + destruct (existsb (String.eqb item_id) (UserDoc.favs u)); simpl;
        split_all; raise_cases.
    + split_all; raise_cases.
  - split_all; raise_cases.
Qed.

End UserProfileMore.

Lemma toggle_favorite_flips_witness :
  toggle_favorite "kebab" (Some "9000000000"%string) [asha]
  = (Return removed, [with_favorites asha (Some ["biryani"%string])])
  /\ toggle_favorite "roll" (Some "9000000000"%string) [asha]
     = (Return added, [with_favorites asha (Some ["biryani"; "kebab"; "roll"]%string)])
  /\ exists action u',
      fst (toggle_favorite "kebab" (Some "9000000000"%string) [asha]) = Return action
      /\ find_user "9000000000"
           (snd (toggle_favorite "kebab" (Some "9000000000"%string) [asha])) = Some u'
      /\ (In "kebab"%string (UserDoc.favs u') <-> ~ In "kebab"%string (UserDoc.favs asha)).
Proof.
  split; [reflexivity|]. split; [reflexivity|].
  destruct (toggle_favorite_flips "kebab" "9000000000" [asha] asha
              ltac:(discriminate) eq_refl)
    as (action & u' & H1 & H2 & _ & H3 & _).
  exists action, u'. auto.
Defined.

Lemma toggle_favorite_twice_witness :
  exists a1 a2 u'',
    fst (toggle_favorite "kebab" (Some "9000000000"%string) [asha]) = Return a1
    /\ fst (toggle_favorite "kebab" (Some "9000000000"%string)
              (snd (toggle_favorite "kebab" (Some "9000000000"%string) [asha])))
       = Return a2
    /\ a1 <> a2
    /\ find_user "9000000000"
         (snd (toggle_favorite "kebab" (Some "9000000000"%string)
                 (snd (toggle_favorite "kebab" (Some "9000000000"%string) [asha]))))
       = Some u''
    /\ (forall x, In x (UserDoc.favs u'') <-> In x (UserDoc.favs asha))
    /\ with_favorites u'' (UserDoc.favorites asha) = asha.
Proof.
  exact (toggle_favorite_twice "kebab" "9000000000" [asha] asha
           ltac:(discriminate) eq_refl).
Defined.

Lemma add_address_appends_witness :
  (exists u',
      fst (add_address home (Some "9000000000"%string) [asha]) = Return (Some u')
      /\ UserDoc.addrs u' = [home])
  /\ (exists u',
        fst (add_address home (Some "9111111111"%string) [asha]) = Return (Some u')
        /\ UserDoc.addrs u' = [home]
        /\ List.length (snd (add_address home (Some "9111111111"%string) [asha])) = 2%nat).
Proof.
  split.
  - destruct (add_address_appends home "9000000000" [asha] ltac:(discriminate))
      as (u' & H1 & _ & H2 & _).
    exists u'. split; [exact H1 | exact H2].
  - destruct (add_address_appends home "9111111111" [asha] ltac:(discriminate))
      as (u' & H1 & _ & H2 & H3 & _).
    exists u'. split; [exact H1|]. split; [exact H2 | exact (proj2 H3)].
Defined.

(** ** More on coupons and pricing *)

Section CouponFacts.

Lemma find_app {A} (P : A -> bool) l l' :
  find P (l ++ l') = match find P l with Some x => Some x | None => find P l' end.
Proof.
  induction l as [|x l IH]; simpl; [reflexivity|].
  destruct (P x); [reflexivity | exact IH].
Qed.

Lemma shadowed_lookup before c after code :
  shadowed before c ->
  find (coupon_matches (upper code)) (before ++ c :: after)
  = find (coupon_matches (upper code)) (before ++ after).
Proof.
  intros Hc. rewrite !find_app.
  destruct (find (coupon_matches (upper code)) before) as [x|] eqn:E; [reflexivity|].
  simpl. destruct (coupon_matches (upper code) c) eqn:Hm; [|reflexivity].
  exfalso. unfold coupon_matches in Hm. apply andb_true_iff in Hm as [Hcode Hact].
  apply String.eqb_eq in Hcode. apply Bool.eqb_prop in Hact.
  destruct Hc as [Hc | [Hc | (c' & Hin & Hact' & Hcode')]].
  - congruence.
  - apply Hc. rewrite Hcode. apply upper_idempotent.
  - apply (find_none _ _ E) in Hin. unfold coupon_matches in Hin.
    rewrite Hcode', Hcode, String.eqb_refl, Hact' in Hin. discriminate.
Qed.

(** X11: a coupon that is inactive, whose stored code has a lower-case
    letter, or that comes after an active coupon with the same code is dead:
    with or without it in the collection, every lookup, every preview and
    every order pricing is the same. *)
Theorem shadowed_coupon_is_dead before c after orders :
  shadowed before c ->
  let db := {| coupon := before ++ c :: after; order := orders |} in
  let db' := {| coupon := before ++ after; order := orders |} in
  (forall code, lookup db code = lookup db' code)
  /\ (forall code subtotal,
        applyCouponPreview db code subtotal = applyCouponPreview db' code subtotal)
  /\ (forall payload, priceOrder db payload = priceOrder db' payload).
Proof.
  intros Hc db db'.
  assert (Hlookup : forall code, lookup db code = lookup db' code)
    by (intros code; apply shadowed_lookup, Hc).
  split; [exact Hlookup|]. split.
  - intros code subtotal. unfold applyCouponPreview.
    rewrite !apply_coupon_run; simpl. now rewrite Hlookup.
  - intros payload. unfold priceOrder.
    destruct (CreateOrderPayload.items payload) as [|i items] eqn:E.
    + rewrite !create_order_empty by exact E. reflexivity.
    + rewrite !order_of_create by congruence. simpl.
      unfold pricing_of, built_order; simpl.
      assert (Hd : forall cc s, raw_discount db cc s = raw_discount db' cc s).
      { intros cc s. unfold raw_discount, order_discount, bind.
        destruct cc as [code|]; [|reflexivity].
        destruct (truthy code); [|reflexivity].
        rewrite !find_one_coupon_run, Hlookup.
        destruct (lookup db' code) as [x|]; [|reflexivity].
        destruct (fge s (Coupon.min_order x)); reflexivity. }
      now rewrite Hd.
Qed.

Lemma SFcompare_refl x : is_nan x = false -> SFcompare x x = Some Eq.
Proof.
  destruct x as [s|s| |s m e]; simpl; try discriminate; intros _;
    try (destruct s; reflexivity).
  rewrite Z.compare_refl, Pos.compare_cont_refl. destruct s; reflexivity.
Qed.

Lemma SFcompare_nan x y :
  SFcompare x y = None <-> is_nan x = true \/ is_nan y = true.
Proof.
  destruct x as [sx|sx| |sx mx ex], y as [sy|sy| |sy my ey]; simpl;
    intuition (try discriminate; try reflexivity).
Qed.

Lemma SFcompare_some x y c :
  SFcompare x y = Some c -> is_nan x = false /\ is_nan y = false.
Proof.
  destruct x as [sx|sx| |sx mx ex], y as [sy|sy| |sy my ey]; simpl;
    intros H; try discriminate; split; reflexivity.
Qed.

(** X12: the two eligibility tests, [subtotal < min_order] refusing in the
    preview and [subtotal >= min_order] granting in the order, agree
    exactly when neither number is NaN; on a NaN the preview applies the
    coupon and the order does not. *)
Theorem eligibility_tests_differ_on_nan db code c subtotal :
  lookup db code = Some c ->
  exists r,
    applyCouponPreview db code subtotal = Return r
    /\ (applied r = fge subtotal (Coupon.min_order c) <->
        is_nan subtotal = false /\ is_nan (Coupon.min_order c) = false)
    /\ (is_nan subtotal = true \/ is_nan (Coupon.min_order c) = true ->
        applied r = true /\ raw_discount db (Some code) subtotal = zero).
Proof.
  intros Hc. unfold applyCouponPreview. rewrite apply_coupon_run; simpl. rewrite Hc.
  destruct (SFcompare subtotal (Coupon.min_order c)) as [cmp|] eqn:E.
  - destruct (SFcompare_some _ _ _ E) as [Hs Hm].
    assert (Hagree : negb (flt subtotal (Coupon.min_order c))
                     = fge subtotal (Coupon.min_order c)).
    { unfold flt, fge, SFltb, SFleb.
      rewrite (SFcompare_antisym subtotal (Coupon.min_order c)), E.
      destruct cmp; reflexivity. }
    destruct (flt subtotal (Coupon.min_order c)); simpl in Hagree;
      eexists; (split; [reflexivity|]); simpl;
      (split; [split; [auto | intros _; exact Hagree] | intros [H|H]; congruence]).
  - assert (Hlt : flt subtotal (Coupon.min_order c) = false)
      by (unfold flt, SFltb; now rewrite E).
    assert (Hge : fge subtotal (Coupon.min_order c) = false)
      by (unfold fge, SFleb;
          now rewrite (SFcompare_antisym subtotal (Coupon.min_order c)), E).
    rewrite Hlt. eexists; split; [reflexivity|]; simpl. split.
    + rewrite Hge. split; [discriminate|]. intros [H1 H2].
      apply SFcompare_nan in E. destruct E; congruence.
    + intros _. split; [reflexivity|].
      exact (raw_discount_ineligible _ _ _ _ Hc Hge).
Qed.

(** X13: the minimum order is inclusive: a subtotal equal to [min_order] gets
    the coupon, in the preview and in the order. *)
Theorem minimum_order_is_inclusive db code c :
  lookup db code = Some c ->
  code <> EmptyString ->
  is_nan (Coupon.min_order c) = false ->
  applyCouponPreview db code (Coupon.min_order c)
  = Return (Applied (round2 (spec_discount c (Coupon.min_order c)))
              (Coupon.code c) (Coupon.description c))
  /\ raw_discount db (Some code) (Coupon.min_order c)
     = spec_discount c (Coupon.min_order c).
Proof.
  intros Hc Hcode Hm.
  assert (Hge : fge (Coupon.min_order c) (Coupon.min_order c) = true)
    by (unfold fge, SFleb; now rewrite (SFcompare_refl _ Hm)).
  split.
  - unfold applyCouponPreview. rewrite apply_coupon_run; simpl.
    now rewrite Hc, (fge_not_flt _ _ Hge).
  - now rewrite (raw_discount_found _ _ _ _ Hcode Hc), Hge.
Qed.

End CouponFacts.

Lemma shadowed_coupon_is_dead_witness :
  shadowed [seed_coupon]
    {| Coupon.code := "PAKKTUN15"; Coupon.description := None;
       Coupon.type := "flat"; Coupon.value := float_of_int 200;
       Coupon.min_order := float_of_int 0; Coupon.active := true |}
  /\ priceOrder
       {| coupon := [seed_coupon;
                     {| Coupon.code := "PAKKTUN15"; Coupon.description := None;
                        Coupon.type := "flat"; Coupon.value := float_of_int 200;
                        Coupon.min_order := float_of_int 0; Coupon.active := true |}];
          order := [] |}
       (cart600 delivery (Some "pakktun15"%string))
     = priceOrder seeded_db (cart600 delivery (Some "pakktun15"%string)).
Proof.
  assert (H : shadowed [seed_coupon]
    {| Coupon.code := "PAKKTUN15"; Coupon.description := None;
       Coupon.type := "flat"; Coupon.value := float_of_int 200;
       Coupon.min_order := float_of_int 0; Coupon.active := true |}).
  { right; right. exists seed_coupon. split; [left; reflexivity|]. split; reflexivity. }
  split; [exact H|].
  exact (proj2 (proj2 (shadowed_coupon_is_dead [seed_coupon] _ [] [] H))
           (cart600 delivery (Some "pakktun15"%string))).
Defined.

Lemma eligibility_tests_differ_on_nan_witness :
  exists r,
    applyCouponPreview seeded_db "pakktun15" S754_nan = Return r
    /\ applied r = true
    /\ raw_discount seeded_db (Some "pakktun15"%string) S754_nan = zero.
Proof.
  destruct (eligibility_tests_differ_on_nan seeded_db "pakktun15" seed_coupon S754_nan
              eq_refl) as (r & Hr & _ & Hnan).
  exists r. split; [exact Hr|]. apply Hnan. left; reflexivity.
Defined.

Lemma minimum_order_is_inclusive_witness :
  applyCouponPreview seeded_db "pakktun15" (float_of_int 499)
  = Return (Applied (fdiv (float_of_int 7485) hundred) "PAKKTUN15"
              (Coupon.description seed_coupon))
  /\ raw_discount seeded_db (Some "pakktun15"%string) (float_of_int 499)
     = fdiv (fmul (float_of_int 499) (float_of_int 15)) hundred.
Proof.
  exact (minimum_order_is_inclusive seeded_db "pakktun15" seed_coupon
           eq_refl ltac:(discriminate) eq_refl).
Defined.

Section DiscountSign.

Lemma hundred_value : hundred = S754_finite false 7036874417766400 (-46).
Proof. reflexivity. Qed.

Lemma SFdiv_finite_signed sx mx ex sy my ey :
  signed (xorb sx sy) (fdiv (S754_finite sx mx ex) (S754_finite sy my ey)).
Proof.
  unfold fdiv, SFdiv, SFdiv_core_binary.
  set (m' := match _ with Z0 => _ | Zpos _ => _ | Zneg _ => _ end).
  destruct (Z.div_eucl m' (Zpos my)) as [mz r] eqn:E.
  apply binary_round_aux_signed.
  apply (div_eucl_nonneg m' (Zpos my) mz r); try lia; auto.
  subst m'. destruct (_ - _ - _); try lia.
  apply Z.shiftl_nonneg; lia.
Qed.

(** [x >= 0.0] is kept by the product of finite floats, by the division by
    [100.0] and by [round(x, 2)]. *)
Lemma fmul_not_negative x y :
  fge x zero = true -> fge y zero = true ->
  is_finite x = true -> is_finite y = true ->
  fge (fmul x y) zero = true.
Proof.
  intros Hx Hy Fx Fy.
  destruct x as [sx|sx| |sx mx ex]; try discriminate;
    destruct y as [sy|sy| |sy my ey]; try discriminate; try reflexivity.
  apply fge_zero_cases in Hx as [Hx | [=]]. apply fge_zero_cases in Hy as [Hy | [=]].
  simpl in Hx, Hy; subst. apply nonneg_fge_zero, nonneg_signed.
  unfold fmul, SFmul. apply binary_round_aux_signed. lia.
Qed.

Lemma fdiv_hundred_not_negative x :
  fge x zero = true -> fge (fdiv x hundred) zero = true.
Proof.
  intros Hx. rewrite hundred_value.
  destruct x as [sx|sx| |sx mx ex]; try discriminate; try reflexivity.
  - apply fge_zero_cases in Hx as [Hx | [=]]. simpl in Hx; subst. reflexivity.
  - apply fge_zero_cases in Hx as [Hx | [=]]. simpl in Hx; subst.
    apply nonneg_fge_zero, nonneg_signed.
    exact (SFdiv_finite_signed false mx ex false _ _).
Qed.

Lemma round2_not_negative x : fge x zero = true -> fge (round2 x) zero = true.
Proof.
  intros Hx. apply fge_zero_cases in Hx as [Hx | ->]; [|reflexivity].
  apply nonneg_fge_zero, round2_nonneg, Hx.
Qed.

Lemma spec_discount_not_negative c subtotal :
  Coupon.valid c -> is_finite (Coupon.value c) = true ->
  fge subtotal zero = true -> is_finite subtotal = true ->
  fge (spec_discount c subtotal) zero = true.
Proof.
  intros [Hv _] Fv Hs Fs. unfold spec_discount.
  destruct (kind c); [exact Hv|].
  apply fdiv_hundred_not_negative, fmul_not_negative; assumption.
Qed.

Lemma lookup_in db code c : lookup db code = Some c -> In c (coupon db).
Proof. unfold lookup; intros H. now apply find_some in H. Qed.

(** X14: when every stored coupon satisfies the constraints of [Coupon] and has
    a finite value, no discount is negative or NaN: not the discount of an
    order with valid items and a finite subtotal, and not the discount of
    a preview on a finite subtotal that is at least 0. *)
Theorem discounts_are_not_negative db :
  Forall (fun c => Coupon.valid c /\ is_finite (Coupon.value c) = true) (coupon db) ->
  (forall payload r,
      CreateOrderPayload.valid payload ->
      is_finite (subtotal_of (CreateOrderPayload.items payload)) = true ->
      priceOrder db payload = Some r ->
      fge (pr_discount r) zero = true)
  /\ (forall code subtotal r,
        fge subtotal zero = true ->
        is_finite subtotal = true ->
        applyCouponPreview db code subtotal = Return r ->
        fge (response_discount r) zero = true).
Proof.
  intros Hdb. rewrite Forall_forall in Hdb. split.
  - intros payload r Hvalid Hfin Hr. unfold priceOrder in Hr.
    destruct (CreateOrderPayload.items payload) as [|i items] eqn:E.
    { rewrite (create_order_empty _ _ E) in Hr. discriminate. }
    rewrite order_of_create in Hr by congruence. injection Hr as <-. simpl.
    apply round2_not_negative.
    pose proof (nonneg_fge_zero _ (subtotal_nonneg _ Hvalid)) as Hs.
    rewrite E in *. set (s := subtotal_of (i :: items)) in *.
    unfold raw_discount, order_discount, bind.
    destruct (CreateOrderPayload.coupon_code payload) as [code|]; [|reflexivity].
    destruct (truthy code); [|reflexivity].
    rewrite find_one_coupon_run.
    destruct (lookup db code) as [c|] eqn:Hc; [|reflexivity].
    destruct (fge s (Coupon.min_order c)); [|reflexivity].
    destruct (Hdb c (lookup_in _ _ _ Hc)) as [Hcv Hcf].
    pose proof (spec_discount_not_negative c s Hcv Hcf Hs Hfin) as H.
    unfold spec_discount, kind in H. simpl.
    destruct (String.eqb (Coupon.type c) "flat"); exact H.
  - intros code subtotal r Hs Hfin Hr. unfold applyCouponPreview in Hr.
    rewrite apply_coupon_run in Hr; simpl in Hr.
    destruct (lookup db code) as [c|] eqn:Hc; [|discriminate].
    destruct (flt subtotal (Coupon.min_order c)); injection Hr as <-; [reflexivity|].
    simpl. apply round2_not_negative.
    destruct (Hdb c (lookup_in _ _ _ Hc)) as [Hcv Hcf].
    now apply spec_discount_not_negative.
Qed.

(** X15: the simulated payment of an order that was placed names that order:
    its id is the id of the stored order and its amount is the order's
    total, which is at least 0.  An order paid on delivery has no payment
    and the payment status [cod]; every other order has the status
    [pending]. *)
Theorem payment_matches_order payload db resp db' :
  create_order payload db = (Return resp, db') ->
  exists oid o,
    resp_order resp = Some (oid, o)
    /\ stored db' oid = Some (oid, o)
    /\ fge (Order.total o) zero = true
    /\ match CreateOrderPayload.payment_method payload with
       | cod => resp_payment resp = None /\ Order.payment_status o = payment_cod
       | method =>
           resp_payment resp
           = Some {| gateway := method; order_id := oid; amount := Order.total o |}
           /\ Order.payment_status o = payment_pending
       end.
Proof.
  intros Hcreate.
  destruct (CreateOrderPayload.items payload) as [|i items] eqn:E.
  { rewrite (create_order_empty _ _ E) in Hcreate. discriminate. }
  rewrite create_order_run in Hcreate by congruence.
  injection Hcreate as <- <-.
  exists (fresh_id (order db)), (built_order db payload).
  split; [reflexivity|]. split; [apply find_inserted|]. split.
  - apply nonneg_fge_zero, round2_nonneg, py_max_zero_nonneg.
  - unfold payment_of; simpl.
    destruct (CreateOrderPayload.payment_method payload); split; reflexivity.
Qed.

(** X16: seeding twice is seeding once, as far as the coupons go: the
    coupon is created only in an empty coupon collection, so a second call changes nothing, a collection that
    has a coupon is left alone, the orders are never touched, and after
    seeding an empty collection the code PAKKTUN15 resolves in any case of
    its letters. *)
Theorem seed_data_is_idempotent db :
  let once := snd (seed_data db) in
  seed_data once = (Return tt, once)
  /\ order once = order db
  /\ coupon once <> []
  /\ (coupon db <> [] -> once = db)
  /\ (coupon db = [] ->
      forall code, upper code = "PAKKTUN15"%string -> lookup once code = Some seed_coupon).
Proof.
  intros once; subst once. unfold seed_data.
  destruct (coupon db) as [|c cs] eqn:E; simpl.
  - rewrite E; simpl.
    split; [reflexivity|]. split; [reflexivity|]. split; [discriminate|].
    split; [congruence|]. intros _ code Hcode.
    unfold lookup; simpl. rewrite Hcode. reflexivity.
  - rewrite E. split; [reflexivity|]. split; [reflexivity|].
    split; [discriminate|]. split; [reflexivity | discriminate].
Qed.

End DiscountSign.

Lemma discounts_are_not_negative_witness :
  Forall (fun c => Coupon.valid c /\ is_finite (Coupon.value c) = true) (coupon seeded_db)
  /\ (exists r,
        priceOrder seeded_db (cart600 delivery (Some "pakktun15"%string)) = Some r
        /\ fge (pr_discount r) zero = true)
  /\ (exists r,
        applyCouponPreview seeded_db "pakktun15" (float_of_int 600) = Return r
        /\ fge (response_discount r) zero = true).
Proof.
  assert (H : Forall (fun c => Coupon.valid c /\ is_finite (Coupon.value c) = true)
                (coupon seeded_db)).
  { repeat constructor. }
  destruct (discounts_are_not_negative seeded_db H) as [Horder Hpreview].
  split; [exact H|]. split.
  - eexists. split; [reflexivity|].
    apply (Horder (cart600 delivery (Some "pakktun15"%string)));
      [valid_cart | reflexivity | reflexivity].
  - eexists. split; [reflexivity|].
    apply (Hpreview "pakktun15"%string (float_of_int 600)); reflexivity.
Defined.

Lemma payment_matches_order_witness :
  let payload := {|
    CreateOrderPayload.phone := "9000000000";
    CreateOrderPayload.items := [item "Family Combo" 1 1099];
    CreateOrderPayload.delivery_type := delivery;
    CreateOrderPayload.address := Some home;
    CreateOrderPayload.coupon_code := Some "PAKKTUN15"%string;
    CreateOrderPayload.payment_method := upi |} in
  exists oid o,
    stored (snd (create_order payload seeded_db)) oid = Some (oid, o)
    /\ payment_of payload 1%nat (built_order seeded_db payload)
       = Some {| gateway := upi; order_id := oid; amount := Order.total o |}
    /\ Order.payment_status o = payment_pending.
Proof.
  intros payload.
  destruct (payment_matches_order payload seeded_db
              {| resp_order := Some (1%nat, built_order seeded_db payload);
                 resp_payment := payment_of payload 1%nat (built_order seeded_db payload) |}
              (snd (create_order payload seeded_db))
              ltac:(vm_compute; reflexivity))
    as (oid & o & _ & Hstored & _ & Hpay & Hstatus).
  exists oid, o. split; [exact Hstored|]. split; [exact Hpay | exact Hstatus].
Defined.

(** ** [serialize] *)

Section SerializeFacts.

Variable datetime : Type.
Variable isoformat : datetime -> string.
Variable str_of_ObjectId : ObjectId -> string.

Abbreviation dict := (Doc.dict datetime).
Abbreviation iso := (Doc.iso datetime isoformat).
Abbreviation iso_value := (Doc.iso_value datetime isoformat).
Abbreviation id_step := (Doc.id_step datetime str_of_ObjectId).
Abbreviation serialize := (Doc.serialize datetime isoformat str_of_ObjectId).

Lemma iso_pair (kv : string * Doc.value datetime) : iso kv = (fst kv, iso_value (snd kv)).
Proof. destruct kv as [k []]; reflexivity. Qed.

Lemma iso_value_twice v : iso_value (iso_value v) = iso_value v.
Proof. destruct v; reflexivity. Qed.

Lemma iso_twice kv : iso (iso kv) = iso kv.
Proof. rewrite !iso_pair; simpl. now rewrite iso_value_twice. Qed.

Lemma iso_value_not_datetime v : Doc.is_datetime (iso_value v) = false.
Proof. destruct v; reflexivity. Qed.

Lemma iso_value_ObjectId v : Doc.is_ObjectId (iso_value v) = Doc.is_ObjectId v.
Proof. destruct v; reflexivity. Qed.

Lemma get_map_iso key (doc : dict) :
  Doc.get key (List.map iso doc) = option_map iso_value (Doc.get key doc).
Proof.
  unfold Doc.get. induction doc as [|kv doc IH]; simpl; [reflexivity|].
  rewrite iso_pair; simpl.
  destruct (String.eqb (fst kv) key); [reflexivity | exact IH].
Qed.

Lemma get_del key key' (doc : dict) :
  Doc.get key (Doc.del key' doc)
  = if String.eqb key' key then None else Doc.get key doc.
Proof.
  unfold Doc.get, Doc.del. induction doc as [|kv doc IH]; simpl.
  - destruct (String.eqb key' key); reflexivity.
  - destruct (String.eqb_spec (fst kv) key') as [E|E]; simpl.
    + rewrite IH, E. destruct (String.eqb_spec key' key); [reflexivity|].
      destruct (String.eqb_spec key' key); [contradiction | reflexivity].
    + destruct (String.eqb_spec (fst kv) key) as [E'|E']; [|exact IH].
      destruct (String.eqb_spec key' key); [congruence | reflexivity].
Qed.

Lemma get_set key key' v (doc : dict) :
  Doc.get key (Doc.set key' v doc)
  = if String.eqb key' key then Some v else Doc.get key doc.
Proof.
  unfold Doc.get. induction doc as [|kv doc IH]; simpl.
  - destruct (String.eqb key' key); reflexivity.
  - destruct (String.eqb_spec (fst kv) key') as [E|E]; simpl.
    + rewrite E. destruct (String.eqb key' key); reflexivity.
    + destruct (String.eqb_spec (fst kv) key) as [E'|E']; [|exact IH].
      destruct (String.eqb_spec key' key); [congruence | reflexivity].
Qed.

Lemma serialize_run (doc : dict) :
  serialize (Some doc) = Some (List.map iso (id_step doc)).
Proof.
  destruct doc as [|kv doc]; reflexivity.
Qed.

Lemma id_step_no_ObjectId (doc : dict) :
  match Doc.get "_id" (id_step doc) with
  | Some v => Doc.is_ObjectId v = false
  | None => True
  end.
Proof.
  unfold Doc.id_step. destruct (Doc.get "_id" doc) as [v|] eqn:E.
  - destruct v; try (rewrite E; reflexivity).
    rewrite get_del. simpl. exact I.
  - now rewrite E.
Qed.

(** X17: [serialize] is idempotent: a document that was serialised comes back
    unchanged when it is serialised again. *)
Theorem serialize_idempotent (doc : option dict) :
  serialize (serialize doc) = serialize doc.
Proof.
  destruct doc as [doc|]; [|reflexivity].
  rewrite serialize_run, serialize_run. f_equal.
  pose proof (id_step_no_ObjectId doc) as Hid.
  set (d1 := id_step doc) in *.
  assert (Hstep : id_step (List.map iso d1) = List.map iso d1).
  { unfold Doc.id_step at 1. rewrite get_map_iso.
    destruct (Doc.get "_id" d1) as [v|]; simpl; [|reflexivity].
    destruct v; simpl in *; try reflexivity; discriminate. }
  rewrite Hstep, map_map. apply map_ext. intros kv. apply iso_twice.
Qed.

(** X18: after [serialize], no value of the document is a datetime and [_id]
    holds no ObjectId.  A document whose [_id] is an ObjectId loses the
    key [_id] and has the string of the id under [id], whatever [id] held
    before; any other document keeps its keys in their order.  Every key
    other than [_id] and [id] keeps its value, a datetime as its ISO
    string. *)
Theorem serialize_result (doc : dict) :
  exists out,
    serialize (Some doc) = Some out
    /\ Forall (fun kv => Doc.is_datetime (snd kv) = false) out
    /\ match Doc.get "_id" doc with
       | Some (Doc.VObjectId oid) =>
           Doc.get "_id" out = None
           /\ Doc.get "id" out = Some (Doc.VStr (str_of_ObjectId oid))
       | _ => List.map fst out = List.map fst doc
              /\ Doc.get "id" out = option_map iso_value (Doc.get "id" doc)
       end
    /\ (forall key, key <> "_id"%string -> key <> "id"%string ->
          Doc.get key out = option_map iso_value (Doc.get key doc)).
Proof.
  exists (List.map iso (id_step doc)). split; [apply serialize_run|]. split.
  { apply Forall_forall. intros kv Hin. apply in_map_iff in Hin as (x & <- & _).
    rewrite iso_pair. apply iso_value_not_datetime. }
  assert (Hkeys : forall d : dict, List.map fst (List.map iso d) = List.map fst d).
  { intros d. rewrite map_map. apply map_ext. intros kv. now rewrite iso_pair. }
  unfold Doc.id_step. split.
  - destruct (Doc.get "_id" doc) as [v|] eqn:E.
    + destruct v; try (split; [apply Hkeys | apply get_map_iso]).
      rewrite !get_map_iso, !get_del, !get_set. simpl. split; reflexivity.
    + split; [apply Hkeys | apply get_map_iso].
  - intros key H1 H2. rewrite get_map_iso.
    destruct (Doc.get "_id" doc) as [v|]; [|reflexivity].
    destruct v; try reflexivity.
    rewrite get_del, get_set.
    destruct (String.eqb_spec "_id" key); [congruence|].
    destruct (String.eqb_spec "id" key); [congruence | reflexivity].
Qed.

End SerializeFacts.

(** X19: the code an applied preview reports is the caller's code in upper
    case, the stored code of the coupon, whatever case the caller used;
    the detail is the coupon's description. *)
Theorem applied_code_is_upper_case db code subtotal r :
  applyCouponPreview db code subtotal = Return r ->
  applied r = true ->
  exists c, lookup db code = Some c
            /\ r = Applied (response_discount r) (upper code) (Coupon.description c)
            /\ Coupon.code c = upper code
            /\ Coupon.active c = true.
Proof.
  unfold applyCouponPreview. rewrite apply_coupon_run; simpl.
  destruct (lookup db code) as [c|] eqn:Hc; [|discriminate].
  destruct (flt subtotal (Coupon.min_order c)); intros [= <-]; [discriminate|].
  intros _. exists c. rewrite <- (lookup_code _ _ _ Hc).
  split; [reflexivity|]. split; [reflexivity|]. split; [reflexivity|].
  exact (lookup_active _ _ _ Hc).
Qed.

Lemma applied_code_is_upper_case_witness :
  exists c, lookup seeded_db "PakkTun15" = Some c
            /\ Applied (float_of_int 90) "PAKKTUN15" (Coupon.description seed_coupon)
               = Applied (float_of_int 90) (upper "PakkTun15") (Coupon.description c)
            /\ Coupon.code c = upper "PakkTun15"
            /\ Coupon.active c = true.
Proof.
  exact (applied_code_is_upper_case seeded_db "PakkTun15" (float_of_int 600)
           (Applied (float_of_int 90) "PAKKTUN15" (Coupon.description seed_coupon))
           eq_refl eq_refl).
Defined.
